(** * Boris Chat (app.py): session state and completion gateway

    A shallow embedding of [src/app.py]: the Streamlit script that keeps a
    conversation log in [st.session_state], configures a Gemini client from a
    credential and forwards each user turn, with a textual window of the
    previous turns, to the remote model.

    Layout: Python text and slices, the data model, the effect monad of the
    gateway, [configure_gemini], [get_gemini_response], one run of [main],
    the chat display and sessions of several runs, then the properties. *)

From Stdlib Require Import String Ascii DecimalString.
From Stdlib Require Import List NArith ZArith Bool Lia.
Import ListNotations.

Set Implicit Arguments.

(* ================================================================== *)
(** ** Python text *)

(** A Python [str] is a sequence of Unicode code points. *)
Definition pystr := list N.

(** An ASCII literal of the source, character by character. *)
Definition lit (s : string) : pystr :=
  map N_of_ascii (list_ascii_of_string s).

(** ["\n"] *)
Definition nl : pystr := [10%N].

(** Truth value of a [str]: the empty string is false. *)
Definition truthy (s : pystr) : bool :=
  match s with [] => false | _ :: _ => true end.

(** [str(n)] for a non-negative [int]. *)
Definition str_of_nat (n : nat) : pystr :=
  lit (NilZero.string_of_uint (Nat.to_uint n)).

(** [c.isspace()]: the code points CPython's [str.strip()] removes. *)
Definition is_space (c : N) : bool :=
  ((9 <=? c) && (c <=? 13)          (* \t \n \v \f \r *)
   || (28 <=? c) && (c <=? 32)      (* FS GS RS US, space *)
   || (c =? 133) || (c =? 160)      (* NEL, no-break space *)
   || (c =? 5760)                   (* U+1680 *)
   || (8192 <=? c) && (c <=? 8202)  (* U+2000 .. U+200A *)
   || (c =? 8232) || (c =? 8233)    (* U+2028, U+2029 *)
   || (c =? 8239) || (c =? 8287)    (* U+202F, U+205F *)
   || (c =? 12288))%N.              (* U+3000 *)

Fixpoint dropwhile (p : N -> bool) (s : pystr) : pystr :=
  match s with
  | [] => []
  | c :: s' => if p c then dropwhile p s' else s
  end.

Definition lstrip (s : pystr) : pystr := dropwhile is_space s.
Definition rstrip (s : pystr) : pystr := rev (dropwhile is_space (rev s)).

(** [s.strip()] *)
Definition strip (s : pystr) : pystr := rstrip (lstrip s).

(** [sep.join(parts)] *)
Fixpoint join (sep : pystr) (parts : list pystr) : pystr :=
  match parts with
  | [] => []
  | [p] => p
  | p :: rest => p ++ sep ++ join sep rest
  end.

(* ================================================================== *)
(** ** Python list slices *)

Section Slices.
Variable A : Type.

(** [l[i:]]: a negative start counts from the end, and is clamped at 0. *)
Definition slice_from (i : Z) (l : list A) : list A :=
  let len := Z.of_nat (length l) in
  let start := if (i <? 0)%Z then Z.max (len + i) 0 else Z.min i len in
  skipn (Z.to_nat start) l.

(** [l[:j]]: a negative stop counts from the end, and is clamped at 0. *)
Definition slice_to (j : Z) (l : list A) : list A :=
  let len := Z.of_nat (length l) in
  let stop := if (j <? 0)%Z then Z.max (len + j) 0 else Z.min j len in
  firstn (Z.to_nat stop) l.
End Slices.

(* ================================================================== *)
(** ** Data model *)

(** One entry of [st.session_state.messages]: the dict with the keys
    ["role"], ["content"] and ["timestamp"]. *)
Record Message := mkMessage {
  role : pystr;
  content : pystr;
  timestamp : pystr
}.

(** What a call into the remote client gives back: a value, or an
    exception (an instance of [Exception]) recorded by its [str(e)]. *)
Inductive result (A : Type) : Type :=
| Ok (a : A)
| Raise (e : pystr).
Arguments Ok {A} a.
Arguments Raise {A} e.

(** The remote client, as far as the script uses it:
    [model.start_chat(history=[])], [chat.send_message(text)] and
    [response.text]. Each of them may raise. *)
Record Response := mkResponse { text : result pystr }.
Record ChatSession := mkChat { send_message : pystr -> result Response }.
Record GenerativeModel := mkModel { start_chat : result ChatSession }.

(** [st.session_state] *)
Record SessionState := mkState {
  messages : list Message;
  api_key : pystr;
  model : option GenerativeModel
}.

(** The state the script initialises at session start (lines 68-73). *)
Definition initial_state : SessionState :=
  {| messages := []; api_key := []; model := None |}.

(** What a run shows or sends: the status boxes of Streamlit, the calls
    into the remote client. Markup
    (headers, the rendered chat bubbles, the footer) is left out. *)
Inductive Level := Success | Info | Warning | Error.

Inductive Event :=
| EvStatus (lv : Level) (msg : pystr)
| EvConfigure (key : pystr)
| EvStartChat
| EvSend (prompt : pystr).

(* ================================================================== *)
(** ** Effects: exceptions and the trace of events *)

Definition Py (A : Type) : Type := (result A * list Event)%type.

Definition ret {A} (a : A) : Py A := (Ok a, []).

Definition bind {A B} (m : Py A) (k : A -> Py B) : Py B :=
  match m with
  | (Ok a, tr) => let (r, tr') := k a in (r, tr ++ tr')
  | (Raise e, tr) => (Raise e, tr)
  end.

(** [try: body  except Exception as e: handler(str(e))] *)
Definition try_except {A} (body : Py A) (handler : pystr -> Py A) : Py A :=
  match body with
  | (Ok a, tr) => (Ok a, tr)
  | (Raise e, tr) => let (r, tr') := handler e in (r, tr ++ tr')
  end.

(** A call into the outside world, recorded in the trace. *)
Definition call {A} (ev : Event) (r : result A) : Py A := (r, [ev]).

Definition tell (ev : Event) : Py unit := (Ok tt, [ev]).

Declare Scope py_scope.
Delimit Scope py_scope with py.
Notation "x <- m ;; k" := (bind m (fun x => k))
  (at level 100, m at next level, right associativity) : py_scope.
Notation "m ;;; k" := (bind m (fun _ => k))
  (at level 100, right associativity) : py_scope.

(** The status texts of the script. *)
Definition msg_env_loaded : pystr :=
  9989%N :: lit " API Key loaded from environment variable".
Definition msg_env_missing : pystr :=
  128161%N :: lit " API key not found in environment variables".
Definition msg_configured : pystr :=
  9989%N :: lit " API Key configured successfully!".
Definition msg_configure_failed : pystr :=
  10060%N :: lit " Failed to configure API Key".
Definition msg_need_key : pystr :=
  9888%N :: 65039%N ::
  lit " Please set the GEMINI_API_KEY environment variable or enter your API key in the sidebar to start chatting.".
Definition msg_no_model : pystr :=
  10060%N :: lit " Failed to initialize Gemini model. Please check your API key.".
(** [f"Error configuring Gemini API: {str(e)}"] *)
Definition msg_configure_error (e : pystr) : pystr :=
  lit "Error configuring Gemini API: " ++ e.
(** [f"Messages in chat: {len(st.session_state.messages)}"] *)
Definition msg_count (n : nat) : pystr :=
  lit "Messages in chat: " ++ str_of_nat n.
(** [f"Error getting response: {str(e)}"] *)
Definition error_reply (e : pystr) : pystr :=
  lit "Error getting response: " ++ e.

(* ================================================================== *)
(** ** The completion gateway *)

(** Line 93: [chat_history[-10:] if len(chat_history) > 10 else chat_history] *)
Definition recent_history (chat_history : list Message) : list Message :=
  if 10 <? length chat_history then slice_from (-10) chat_history
  else chat_history.

(** The f-string of line 96: [f"{msg['role']}: {msg['content']}\n"] *)
Definition context_line (msg : Message) : pystr :=
  role msg ++ lit ": " ++ content msg ++ nl.

(** Lines 94-96: [context = ""], then [context += ...] for each message. *)
Definition build_context (recent : list Message) : pystr :=
  fold_left (fun context msg => context ++ context_line msg) recent [].

(** Line 99: [f"{context}\nuser: {prompt}" if context else prompt] *)
Definition full_prompt (prompt : pystr) (chat_history : list Message) : pystr :=
  let context := build_context (recent_history chat_history) in
  if truthy context then context ++ nl ++ lit "user: " ++ prompt
  else prompt.

(** Lines 86-103. *)
Definition get_gemini_response (model : GenerativeModel) (prompt : pystr)
    (chat_history : list Message) : Py pystr :=
  try_except
    (chat <- call EvStartChat (start_chat model) ;;
     let full := full_prompt prompt chat_history in
     response <- call (EvSend full) (send_message chat full) ;;
     (text response, []))%py
    (fun e => ret (error_reply e)).

(* ================================================================== *)
(** ** One run of the script *)

(** How a run of [main] can end before its last line: an explicit
    [return], [st.rerun()], or an exception nobody caught. *)
Inductive stop :=
| Returned
| Rerun
| Uncaught (e : pystr).

(** A piece of the script: it reads and updates [st.session_state],
    adds to the trace, and either goes on with a value or stops. The
    updates made before a stop stay in the session state. *)
Definition Script (A : Type) : Type :=
  SessionState -> ((A + stop) * SessionState * list Event)%type.

Definition sret {A} (a : A) : Script A := fun s => (inl a, s, []).

Definition sbind {A B} (m : Script A) (k : A -> Script B) : Script B :=
  fun s =>
    match m s with
    | (inl a, s1, tr1) =>
        match k a s1 with (r, s2, tr2) => (r, s2, tr1 ++ tr2) end
    | (inr st, s1, tr1) => (inr st, s1, tr1)
    end.

Definition lift {A} (m : Py A) : Script A :=
  fun s =>
    match m with
    | (Ok a, tr) => (inl a, s, tr)
    | (Raise e, tr) => (inr (Uncaught e), s, tr)
    end.

Definition get {A} (field : SessionState -> A) : Script A :=
  fun s => (inl (field s), s, []).

Definition update (f : SessionState -> SessionState) : Script unit :=
  fun s => (inl tt, f s, []).

Definition halt {A} (how : stop) : Script A := fun s => (inr how, s, []).

Definition status (lv : Level) (msg : pystr) : Script unit :=
  fun s => (inl tt, s, [EvStatus lv msg]).

Declare Scope script_scope.
Delimit Scope script_scope with script.
Notation "x <- m ;; k" := (sbind m (fun x => k))
  (at level 100, m at next level, right associativity) : script_scope.
Notation "m ;;; k" := (sbind m (fun _ => k))
  (at level 100, right associativity) : script_scope.

Definition set_messages (l : list Message) (s : SessionState) : SessionState :=
  {| messages := l; api_key := api_key s; model := model s |}.
Definition set_api_key (k : pystr) (s : SessionState) : SessionState :=
  {| messages := messages s; api_key := k; model := model s |}.
Definition set_model (m : option GenerativeModel) (s : SessionState) : SessionState :=
  {| messages := messages s; api_key := api_key s; model := m |}.

(** [st.session_state.messages.append(msg)] *)
Definition append_message (msg : Message) (s : SessionState) : SessionState :=
  set_messages (messages s ++ [msg]) s.

(** Lines 143-145, the body of the clear button: [messages = []]. *)
Definition clear (s : SessionState) : SessionState := set_messages [] s.

(** What a run reads from outside: the environment, the widgets and the
    clock ([datetime.now().isoformat()] at the two appends). *)
Record Inputs := mkInputs {
  env_api_key : option pystr;     (* os.getenv("GEMINI_API_KEY") *)
  api_key_input : pystr;          (* the password field of the sidebar *)
  clear_button : bool;
  user_input : pystr;
  send_button : bool;
  now_user : pystr;
  now_assistant : pystr
}.

(** Truth value of [os.getenv(...)]: [None] and [""] are false. *)
Definition env_present (e : option pystr) : option pystr :=
  match e with
  | Some k => if truthy k then Some k else None
  | None => None
  end.

Section App.

(** [genai.configure(api_key=k)] followed by
    [genai.GenerativeModel('gemini-2.5-pro')]: a handle, or an exception. *)
Variable genai : pystr -> result GenerativeModel.

(** Lines 75-84. *)
Definition configure_gemini (k : pystr) : Py (option GenerativeModel) :=
  try_except
    (m <- call (EvConfigure k) (genai k) ;;
     ret (Some m))%py
    (fun e =>
       (tell (EvStatus Error (msg_configure_error e)) ;;;
        ret None)%py).

(** Lines 114-136: the credential part of the sidebar. *)
Definition sidebar_credentials (inp : Inputs) : Script unit :=
  match env_present (env_api_key inp) with
  | Some k =>
      (status Success msg_env_loaded ;;;
       update (set_api_key k) ;;;
       m <- get model ;;
       match m with
       | None =>
           m' <- lift (configure_gemini k) ;;
           update (set_model m')
       | Some _ => sret tt
       end)%script
  | None =>
      (status Info msg_env_missing ;;;
       if truthy (api_key_input inp) then
         update (set_api_key (api_key_input inp)) ;;;
         m' <- lift (configure_gemini (api_key_input inp)) ;;
         update (set_model m') ;;;
         m <- get model ;;
         match m with
         | Some _ => status Success msg_configured
         | None => status Error msg_configure_failed
         end
       else sret tt)%script
  end.

(** Lines 143-148: the clear button and the message count. *)
Definition sidebar_controls (inp : Inputs) : Script unit :=
  ((if clear_button inp then
      update clear ;;;
      halt Rerun
    else sret tt) ;;;
   msgs <- get messages ;;
   status Info (msg_count (length msgs)))%script.

(** Lines 242-267: a click on send with some text in the field. *)
Definition handle_send (inp : Inputs) (mdl : GenerativeModel) : Script unit :=
  if send_button inp && truthy (strip (user_input inp)) then
    (update (append_message
               {| role := lit "user";
                  content := user_input inp;
                  timestamp := now_user inp |}) ;;;
     msgs <- get messages ;;
     response <- lift (get_gemini_response mdl (user_input inp)
                         (slice_to (-1) msgs)) ;;
     update (append_message
               {| role := lit "assistant";
                  content := response;
                  timestamp := now_assistant inp |}) ;;;
     halt Rerun)%script
  else sret tt.

(** Lines 105-276. *)
Definition main (inp : Inputs) : Script unit :=
  (sidebar_credentials inp ;;;
   sidebar_controls inp ;;;
   k <- get api_key ;;
   if negb (truthy k) then
     status Warning msg_need_key ;;;
     halt Returned
   else
     m <- get model ;;
     match m with
     | None =>
         status Error msg_no_model ;;;
         halt Returned
     | Some mdl => handle_send inp mdl
     end)%script.

End App.

(** The parts of a run's result. *)
Definition outcome {A} (r : (A + stop) * SessionState * list Event) : A + stop :=
  fst (fst r).
Definition state_after {A} (r : (A + stop) * SessionState * list Event) : SessionState :=
  snd (fst r).
Definition trace {A} (r : (A + stop) * SessionState * list Event) : list Event :=
  snd r.

(** The prompts a trace sent to the remote model. *)
Definition sent_prompts (tr : list Event) : list pystr :=
  flat_map (fun ev => match ev with EvSend p => [p] | _ => [] end) tr.

(** The credentials a trace tried to configure. *)
Definition configured_keys (tr : list Event) : list pystr :=
  flat_map (fun ev => match ev with EvConfigure k => [k] | _ => [] end) tr.

(** The status boxes of one level a trace showed. *)
Definition shown (lv : Level) (tr : list Event) : list pystr :=
  flat_map (fun ev =>
              match ev, lv with
              | EvStatus Success m, Success
              | EvStatus Info m, Info
              | EvStatus Warning m, Warning
              | EvStatus Error m, Error => [m]
              | _, _ => []
              end) tr.

(* ================================================================== *)
(** ** Vocabulary of the properties *)

(** What the remote side answers to one request text: the three calls
    [start_chat], [send_message] and [.text] in sequence. *)
Definition remote_call (m : GenerativeModel) (request : pystr) : result pystr :=
  match start_chat m with
  | Raise e => Raise e
  | Ok chat =>
      match send_message chat request with
      | Raise e => Raise e
      | Ok response => text response
      end
  end.

(** The text the gateway hands back, by what the remote side answered. *)
Definition gateway_reply (m : GenerativeModel) (prompt : pystr)
    (hist : list Message) : pystr :=
  match remote_call m (full_prompt prompt hist) with
  | Ok t => t
  | Raise e => error_reply e
  end.

(** The two records a turn appends. *)
Definition user_turn (inp : Inputs) : Message :=
  {| role := lit "user"; content := user_input inp; timestamp := now_user inp |}.
Definition assistant_turn (inp : Inputs) (reply : pystr) : Message :=
  {| role := lit "assistant"; content := reply; timestamp := now_assistant inp |}.

(** The calls of a trace that open a chat or send a request. *)
Definition completion_calls (tr : list Event) : list Event :=
  filter (fun ev => match ev with EvStartChat | EvSend _ => true | _ => false end) tr.

(** After the sidebar, the session has a credential and the handle [mdl]:
    the chat part of the page is reached. *)
Definition ready (genai : pystr -> result GenerativeModel) (inp : Inputs)
    (s : SessionState) (mdl : GenerativeModel) : Prop :=
  let s1 := state_after (sidebar_credentials genai inp s) in
  truthy (api_key s1) = true /\ model s1 = Some mdl.

(** The same inputs with the clear button pressed, and with another text
    in the credential field. *)
Definition with_clear (inp : Inputs) : Inputs :=
  {| env_api_key := env_api_key inp; api_key_input := api_key_input inp;
     clear_button := true; user_input := user_input inp;
     send_button := send_button inp;
     now_user := now_user inp; now_assistant := now_assistant inp |}.

Definition with_api_key_input (k : pystr) (inp : Inputs) : Inputs :=
  {| env_api_key := env_api_key inp; api_key_input := k;
     clear_button := clear_button inp; user_input := user_input inp;
     send_button := send_button inp;
     now_user := now_user inp; now_assistant := now_assistant inp |}.

(** The handle a configuration attempt yields, if any. *)
Definition handle_of (r : result GenerativeModel) : option GenerativeModel :=
  match r with Ok m => Some m | Raise _ => None end.

(** Sample clients and sessions. *)
Definition greeting_model : GenerativeModel :=
  mkModel (Ok (mkChat (fun _ => Ok (mkResponse (Ok (lit "Hi there")))))).
Definition quota_model : GenerativeModel :=
  mkModel (Ok (mkChat (fun _ => Raise (lit "quota exceeded")))).
Definition accepting_genai : pystr -> result GenerativeModel :=
  fun _ => Ok greeting_model.
Definition flaky_genai : pystr -> result GenerativeModel :=
  fun _ => Ok quota_model.
Definition rejecting_genai : pystr -> result GenerativeModel :=
  fun _ => Raise (lit "bad key").

Definition one_turn_history : list Message :=
  [ {| role := lit "user"; content := lit "hi"; timestamp := lit "t0" |} ].

Definition configured_session : SessionState :=
  {| messages := one_turn_history; api_key := lit "good";
     model := Some greeting_model |}.

Definition hello_inputs : Inputs :=
  {| env_api_key := None; api_key_input := lit "good";
     clear_button := false; user_input := lit "Hello"; send_button := true;
     now_user := lit "t1"; now_assistant := lit "t2" |}.

Definition blank_inputs : Inputs :=
  {| env_api_key := None; api_key_input := lit "good";
     clear_button := false; user_input := lit "   "; send_button := true;
     now_user := lit "t1"; now_assistant := lit "t2" |}.

Definition bad_key_inputs : Inputs :=
  {| env_api_key := None; api_key_input := lit "bad";
     clear_button := false; user_input := []; send_button := false;
     now_user := lit "t1"; now_assistant := lit "t2" |}.

Definition env_inputs : Inputs :=
  {| env_api_key := Some (lit "from-env"); api_key_input := lit "typed";
     clear_button := false; user_input := []; send_button := false;
     now_user := lit "t1"; now_assistant := lit "t2" |}.

Definition no_key_inputs : Inputs :=
  {| env_api_key := None; api_key_input := [];
     clear_button := false; user_input := lit "Hello"; send_button := true;
     now_user := lit "t1"; now_assistant := lit "t2" |}.

(* ================================================================== *)
(** ** The chat display (lines 193-224) *)

(** The double quote character. *)
Definition dq : pystr := [34%N].

(** A run of spaces of the source. *)
Definition indent (n : nat) : pystr := repeat 32%N n.

(** [a == b] on [str]. *)
Fixpoint str_eqb (a b : pystr) : bool :=
  match a, b with
  | [], [] => true
  | x :: a', y :: b' => (x =? y)%N && str_eqb a' b'
  | _, _ => false
  end.

(** [s.startswith(old)] *)
Fixpoint starts_with (old s : pystr) : bool :=
  match old, s with
  | [], _ => true
  | o :: old', c :: s' => (o =? c)%N && starts_with old' s'
  | _ :: _, [] => false
  end.

(** The scan of [s.replace(old, new)] for a non-empty [old]: left to
    right, occurrences do not overlap; [skip] counts the characters of an
    occurrence still to pass over. *)
Fixpoint replace_from (old new : pystr) (skip : nat) (s : pystr) : pystr :=
  match s with
  | [] => []
  | c :: s' =>
      match skip with
      | S k => replace_from old new k s'
      | O =>
          if starts_with old s
          then new ++ replace_from old new (length old - 1) s'
          else c :: replace_from old new 0 s'
      end
  end.

(** [s.replace(old, new)]; an empty [old] matches before every character
    and at the end. *)
Definition replace (old new s : pystr) : pystr :=
  match old with
  | [] => new ++ flat_map (fun c => c :: new) s
  | _ :: _ => replace_from old new 0 s
  end.

(** Line 199: [content.replace("<", "&lt;").replace(">", "&gt;")] *)
Definition clean_content (content : pystr) : pystr :=
  replace (lit ">") (lit "&gt;") (replace (lit "<") (lit "&lt;") content).

(** Lines 202-207: the f-string of a user bubble. *)
Definition user_bubble (clean : pystr) : pystr :=
  nl ++ indent 16 ++ lit "<div class=" ++ dq ++ lit "chat-message user-message" ++ dq ++ lit ">"
  ++ nl ++ indent 20 ++ lit "<strong>You:</strong><br>"
  ++ nl ++ indent 20 ++ lit "<div class=" ++ dq ++ lit "message-content" ++ dq ++ lit ">"
  ++ clean ++ lit "</div>"
  ++ nl ++ indent 16 ++ lit "</div>"
  ++ nl ++ indent 16.

(** Lines 209-214: the f-string of an assistant bubble. *)
Definition assistant_bubble (clean : pystr) : pystr :=
  nl ++ indent 16 ++ lit "<div class=" ++ dq ++ lit "chat-message assistant-message" ++ dq ++ lit ">"
  ++ nl ++ indent 20 ++ lit "<strong>Gemini:</strong><br>"
  ++ nl ++ indent 20 ++ lit "<div class=" ++ dq ++ lit "message-content" ++ dq ++ lit ">"
  ++ clean ++ lit "</div>"
  ++ nl ++ indent 16 ++ lit "</div>"
  ++ nl ++ indent 16.

(** Lines 199-214: the markup of one message. *)
Definition render_message (msg : Message) : pystr :=
  let clean := clean_content (content msg) in
  if str_eqb (role msg) (lit "user") then user_bubble clean
  else assistant_bubble clean.

Definition container_open : pystr :=
  lit "<div class=" ++ dq ++ lit "chat-container" ++ dq ++ lit ">".
Definition container_close : pystr := lit "</div>".

(** Lines 218-224: what an empty log shows. *)
Definition empty_placeholder : pystr :=
  nl ++ indent 8 ++ lit "<div class=" ++ dq ++ lit "chat-container" ++ dq ++ lit ">"
  ++ nl ++ indent 12 ++ lit "<div style=" ++ dq
  ++ lit "text-align: center; color: #888; padding: 2rem;" ++ dq ++ lit ">"
  ++ nl ++ indent 16 ++ [128075%N]
  ++ lit " Start a conversation by typing a message below!"
  ++ nl ++ indent 12 ++ lit "</div>"
  ++ nl ++ indent 8 ++ lit "</div>"
  ++ nl ++ indent 8.

(** Lines 194-224: the texts handed to [st.markdown], in order. *)
Definition render_chat (msgs : list Message) : list pystr :=
  match msgs with
  | [] => [empty_placeholder]
  | _ :: _ => [container_open] ++ map render_message msgs ++ [container_close]
  end.

(* ================================================================== *)
(** ** A session: one run after another on the same state *)

(** Every interaction with the page, and every [st.rerun()], runs the
    script again on the session state the previous run left. *)
Definition runs (genai : pystr -> result GenerativeModel)
    (inps : list Inputs) (s : SessionState) : SessionState :=
  fold_left (fun st inp => state_after (main genai inp st)) inps s.

(** A log made of pairs: a user entry, then an assistant entry. *)
Fixpoint alternating (l : list Message) : bool :=
  match l with
  | [] => true
  | u :: rest =>
      match rest with
      | [] => false
      | a :: rest' =>
          str_eqb (role u) (lit "user")
          && str_eqb (role a) (lit "assistant")
          && alternating rest'
      end
  end.

(** What the gateway reads of an entry. *)
Definition role_and_content (msg : Message) : pystr * pystr :=
  (role msg, content msg).

(** ['<'] and ['>'] *)
Definition lt_char : N := 60%N.
Definition gt_char : N := 62%N.

(** What the two replacements of line 199 make of one character. *)
Definition escape_char (c : N) : pystr :=
  if (c =? lt_char)%N then lit "&lt;"
  else if (c =? gt_char)%N then lit "&gt;"
  else [c].

(** Sample inputs of the display and of a session. *)
Definition markup_message : Message :=
  {| role := lit "user"; content := lit "<b>hi</b>"; timestamp := lit "t0" |}.

Definition idle_inputs : Inputs :=
  {| env_api_key := None; api_key_input := [];
     clear_button := false; user_input := lit "typed, not sent";
     send_button := false;
     now_user := lit "t1"; now_assistant := lit "t2" |}.

Definition long_history : list Message :=
  repeat {| role := lit "assistant"; content := lit "ok"; timestamp := lit "t" |} 10.

(* ================================================================== *)
(** ** The request text as the specification words it *)

(** The spec's rendering of one entry, ["<role>: <content>"], and of a
    context: the entries joined by newlines. *)
Definition spec_render_entry (msg : Message) : pystr :=
  role msg ++ lit ": " ++ content msg.

Definition spec_rendered_context (entries : list Message) : pystr :=
  join nl (map spec_render_entry entries).

(** The spec's request text for a non-empty context:
    [<rendered context>\n\n<new utterance>]. *)
Definition spec_request_text (entries : list Message) (U : pystr) : pystr :=
  spec_rendered_context entries ++ nl ++ nl ++ U.

(* ================================================================== *)
(** ** Text and slices: basic facts *)

Arguments lit : simpl never.

Lemma dropwhile_all (p : N -> bool) (s : pystr) :
  forallb p s = true -> dropwhile p s = [].
Proof.
  induction s as [|c s IH]; simpl; [reflexivity|].
  intros H. apply andb_prop in H as [Hc Hs].
  rewrite Hc. auto.
Qed.

Lemma dropwhile_stops (p : N -> bool) (s : pystr) :
  forallb p s = false ->
  exists c rest, dropwhile p s = c :: rest /\ p c = false.
Proof.
  induction s as [|c s IH]; simpl; [discriminate|].
  destruct (p c) eqn:Hc; simpl; intros H.
  - auto.
  - exists c, s. auto.
Qed.

(** [s.strip()] is empty exactly when every character of [s] is a space
    (so in particular when [s] is empty). *)
Lemma strip_truthy (s : pystr) :
  truthy (strip s) = negb (forallb is_space s).
Proof.
  unfold strip, rstrip, lstrip.
  destruct (forallb is_space s) eqn:Hall; simpl.
  - rewrite (dropwhile_all _ _ Hall). reflexivity.
  - destruct (dropwhile_stops _ _ Hall) as (c & rest & Heq & Hc).
    rewrite Heq. simpl rev.
    destruct (forallb is_space (rev rest ++ [c])) eqn:Hrev.
    + rewrite forallb_app in Hrev. simpl in Hrev.
      rewrite Hc in Hrev. rewrite andb_false_r in Hrev. discriminate.
    + destruct (dropwhile_stops _ _ Hrev) as (d & rest' & Heq' & _).
      rewrite Heq'. simpl. destruct (rev rest'); reflexivity.
Qed.

Lemma slice_from_neg (A : Type) (n : nat) (l : list A) :
  n <> 0 -> slice_from (- Z.of_nat n) l = skipn (length l - n) l.
Proof.
  intros Hn. unfold slice_from.
  assert (Hneg : (- Z.of_nat n <? 0)%Z = true) by (apply Z.ltb_lt; lia).
  rewrite Hneg. f_equal. lia.
Qed.

Lemma slice_to_neg (A : Type) (n : nat) (l : list A) :
  n <> 0 -> slice_to (- Z.of_nat n) l = firstn (length l - n) l.
Proof.
  intros Hn. unfold slice_to.
  assert (Hneg : (- Z.of_nat n <? 0)%Z = true) by (apply Z.ltb_lt; lia).
  rewrite Hneg. f_equal. lia.
Qed.

(** [(l + [x])[:-1]] is [l]: the history handed to the gateway. *)
Lemma slice_to_drop_last (A : Type) (l : list A) (x : A) :
  slice_to (-1) (l ++ [x]) = l.
Proof.
  change (-1)%Z with (- Z.of_nat 1)%Z.
  rewrite slice_to_neg by lia.
  rewrite length_app. simpl.
  replace (length l + 1 - 1) with (length l + 0) by lia.
  rewrite firstn_app_2. simpl. apply app_nil_r.
Qed.

(* ================================================================== *)
(** ** The context window *)

Lemma recent_history_skipn (H : list Message) :
  recent_history H = skipn (length H - 10) H.
Proof.
  unfold recent_history.
  destruct (10 <? length H) eqn:Hlen.
  - change (-10)%Z with (- Z.of_nat 10)%Z. apply slice_from_neg. lia.
  - apply Nat.ltb_ge in Hlen.
    replace (length H - 10) with 0 by lia. reflexivity.
Qed.

Lemma build_context_from (acc : pystr) (l : list Message) :
  fold_left (fun context msg => context ++ context_line msg) l acc
  = acc ++ concat (map context_line l).
Proof.
  revert acc. induction l as [|m l IH]; intros acc; simpl.
  - symmetry. apply app_nil_r.
  - rewrite IH. rewrite <- app_assoc. reflexivity.
Qed.

Lemma build_context_concat (l : list Message) :
  build_context l = concat (map context_line l).
Proof. unfold build_context. apply build_context_from. Qed.

Lemma context_is_joined (l : list Message) :
  l <> [] -> build_context l = spec_rendered_context l ++ nl.
Proof.
  rewrite build_context_concat. unfold spec_rendered_context.
  induction l as [|m l IH]; [congruence|]. intros _.
  destruct l as [|m' l].
  - simpl. unfold context_line, spec_render_entry.
    rewrite app_nil_r. rewrite !app_assoc. reflexivity.
  - change (concat (map context_line (m :: m' :: l)))
      with (context_line m ++ concat (map context_line (m' :: l))).
    rewrite IH by discriminate.
    change (join nl (map spec_render_entry (m :: m' :: l)))
      with (spec_render_entry m ++ nl ++ join nl (map spec_render_entry (m' :: l))).
    unfold context_line, spec_render_entry.
    rewrite <- !app_assoc. reflexivity.
Qed.

Lemma context_truthy (l : list Message) :
  truthy (build_context l) = match l with [] => false | _ => true end.
Proof.
  rewrite build_context_concat.
  destruct l as [|m l]; [reflexivity|].
  simpl. unfold context_line.
  destruct (role m); reflexivity.
Qed.

Lemma recent_history_nonempty (H : list Message) :
  H <> [] -> recent_history H <> [].
Proof.
  intros HH Hnil.
  assert (Hlen : length (recent_history H) = 0) by (rewrite Hnil; reflexivity).
  rewrite recent_history_skipn, length_skipn in Hlen.
  assert (length H <> 0) by (destruct H; [congruence | discriminate]).
  lia.
Qed.

(** What the gateway does, in one equation: the trace it leaves and the
    text it returns, by the behaviour of the remote client. *)
Lemma get_gemini_response_eq (m : GenerativeModel) (prompt : pystr)
    (hist : list Message) :
  get_gemini_response m prompt hist =
  match start_chat m with
  | Raise e => (Ok (error_reply e), [EvStartChat])
  | Ok chat =>
      let full := full_prompt prompt hist in
      match send_message chat full with
      | Raise e => (Ok (error_reply e), [EvStartChat; EvSend full])
      | Ok response =>
          match text response with
          | Raise e => (Ok (error_reply e), [EvStartChat; EvSend full])
          | Ok t => (Ok t, [EvStartChat; EvSend full])
          end
      end
  end.
Proof.
  unfold get_gemini_response, try_except, bind, call, ret, error_reply.
  destruct (start_chat m) as [chat|e]; [|reflexivity].
  cbv zeta.
  destruct (send_message chat (full_prompt prompt hist)) as [resp|e]; [|reflexivity].
  destruct (text resp) as [t|e]; reflexivity.
Qed.

Lemma sent_prompts_gateway (m : GenerativeModel) (prompt : pystr)
    (hist : list Message) :
  sent_prompts (snd (get_gemini_response m prompt hist)) =
  match start_chat m with
  | Ok _ => [full_prompt prompt hist]
  | Raise _ => []
  end.
Proof.
  rewrite get_gemini_response_eq.
  destruct (start_chat m) as [chat|e]; [|reflexivity].
  cbv zeta.
  destruct (send_message chat (full_prompt prompt hist)) as [resp|e]; [|reflexivity].
  destruct (text resp) as [t|e]; reflexivity.
Qed.

(* ================================================================== *)
(** ** One run of the script, in equations *)

Section Run.
Variable genai : pystr -> result GenerativeModel.

Lemma configure_gemini_eq (k : pystr) :
  configure_gemini genai k =
  match genai k with
  | Ok m => (Ok (Some m), [EvConfigure k])
  | Raise e => (Ok None, [EvConfigure k; EvStatus Error (msg_configure_error e)])
  end.
Proof.
  unfold configure_gemini, try_except, bind, call, tell, ret.
  destruct (genai k); reflexivity.
Qed.

(** The credential part of the sidebar, case by case. *)
Lemma sidebar_credentials_eq (inp : Inputs) (s : SessionState) :
  sidebar_credentials genai inp s =
  match env_present (env_api_key inp) with
  | Some k =>
      match model s with
      | Some _ => (inl tt, set_api_key k s, [EvStatus Success msg_env_loaded])
      | None =>
          match genai k with
          | Ok m =>
              (inl tt, set_model (Some m) (set_api_key k s),
               [EvStatus Success msg_env_loaded; EvConfigure k])
          | Raise e =>
              (inl tt, set_model None (set_api_key k s),
               [EvStatus Success msg_env_loaded; EvConfigure k;
                EvStatus Error (msg_configure_error e)])
          end
      end
  | None =>
      let k := api_key_input inp in
      if truthy k then
        match genai k with
        | Ok m =>
            (inl tt, set_model (Some m) (set_api_key k s),
             [EvStatus Info msg_env_missing; EvConfigure k;
              EvStatus Success msg_configured])
        | Raise e =>
            (inl tt, set_model None (set_api_key k s),
             [EvStatus Info msg_env_missing; EvConfigure k;
              EvStatus Error (msg_configure_error e);
              EvStatus Error msg_configure_failed])
        end
      else (inl tt, s, [EvStatus Info msg_env_missing])
  end.
Proof.
  unfold sidebar_credentials.
  destruct (env_present (env_api_key inp)) as [k|].
  - unfold sbind, status, update, get, lift, sret.
    cbn [model set_api_key].
    destruct (model s) as [m|]; [reflexivity|].
    rewrite configure_gemini_eq.
    destruct (genai k); reflexivity.
  - cbv zeta. unfold sbind at 1. unfold status at 1.
    destruct (truthy (api_key_input inp)); [|reflexivity].
    unfold sbind, status, update, get, lift, sret.
    rewrite configure_gemini_eq.
    destruct (genai (api_key_input inp)); reflexivity.
Qed.

Lemma sidebar_credentials_goes_on (inp : Inputs) (s : SessionState) :
  outcome (sidebar_credentials genai inp s) = inl tt.
Proof.
  rewrite sidebar_credentials_eq.
  destruct (env_present (env_api_key inp)) as [k|].
  - destruct (model s); [reflexivity|]. destruct (genai k); reflexivity.
  - cbv zeta. destruct (truthy (api_key_input inp)); [|reflexivity].
    destruct (genai (api_key_input inp)); reflexivity.
Qed.

Lemma sidebar_credentials_messages (inp : Inputs) (s : SessionState) :
  messages (state_after (sidebar_credentials genai inp s)) = messages s.
Proof.
  rewrite sidebar_credentials_eq.
  destruct (env_present (env_api_key inp)) as [k|].
  - destruct (model s); [reflexivity|]. destruct (genai k); reflexivity.
  - cbv zeta. destruct (truthy (api_key_input inp)); [|reflexivity].
    destruct (genai (api_key_input inp)); reflexivity.
Qed.

Lemma get_gemini_response_returns (m : GenerativeModel) (prompt : pystr)
    (hist : list Message) :
  fst (get_gemini_response m prompt hist) = Ok (gateway_reply m prompt hist).
Proof.
  rewrite get_gemini_response_eq. unfold gateway_reply, remote_call.
  destruct (start_chat m) as [chat|e]; [|reflexivity].
  cbv zeta.
  destruct (send_message chat (full_prompt prompt hist)) as [resp|e]; [|reflexivity].
  destruct (text resp) as [t|e]; reflexivity.
Qed.

Lemma handle_send_eq (inp : Inputs) (mdl : GenerativeModel) (s : SessionState) :
  handle_send inp mdl s =
  if send_button inp && truthy (strip (user_input inp)) then
    (inr Rerun,
     append_message
       (assistant_turn inp (gateway_reply mdl (user_input inp) (messages s)))
       (append_message (user_turn inp) s),
     snd (get_gemini_response mdl (user_input inp) (messages s)))
  else (inl tt, s, []).
Proof.
  unfold handle_send.
  destruct (send_button inp && truthy (strip (user_input inp))); [|reflexivity].
  unfold sbind, update, get, lift, halt.
  cbn [messages append_message set_messages].
  rewrite slice_to_drop_last.
  pose proof (get_gemini_response_returns mdl (user_input inp) (messages s)) as Hret.
  destruct (get_gemini_response mdl (user_input inp) (messages s)) as [r tr].
  simpl in Hret. subst r. cbn [snd].
  unfold assistant_turn, user_turn, append_message, set_messages. simpl.
  rewrite !app_nil_r. reflexivity.
Qed.

(** A whole run, by what the sidebar left. *)
Lemma main_eq (inp : Inputs) (s : SessionState) :
  main genai inp s =
  let s1 := state_after (sidebar_credentials genai inp s) in
  let tr1 := trace (sidebar_credentials genai inp s) in
  if clear_button inp then (inr Rerun, clear s1, tr1)
  else
    let tr2 := tr1 ++ [EvStatus Info (msg_count (length (messages s1)))] in
    if negb (truthy (api_key s1)) then
      (inr Returned, s1, tr2 ++ [EvStatus Warning msg_need_key])
    else
      match model s1 with
      | None => (inr Returned, s1, tr2 ++ [EvStatus Error msg_no_model])
      | Some mdl =>
          (outcome (handle_send inp mdl s1),
           state_after (handle_send inp mdl s1),
           tr2 ++ trace (handle_send inp mdl s1))
      end.
Proof.
  pose proof (sidebar_credentials_goes_on inp s) as Hgo.
  unfold main. unfold sbind at 1.
  destruct (sidebar_credentials genai inp s) as [[o s1] tr1].
  unfold outcome, state_after, trace in *. cbn [fst snd] in *. subst o.
  unfold sidebar_controls.
  destruct (clear_button inp).
  - unfold sbind, update, halt, get, status. simpl.
    rewrite !app_nil_r. reflexivity.
  - unfold sbind at 1 2 3. unfold sret at 1. unfold sbind at 1.
    unfold get at 1. unfold status at 1. cbn [app].
    unfold sbind at 1. unfold get at 1.
    destruct (truthy (api_key s1)); cbn [negb].
    + unfold sbind at 1. unfold get at 1.
      destruct (model s1) as [mdl|].
      * destruct (handle_send inp mdl s1) as [[o s2] tr3]. simpl.
        rewrite <- app_assoc. reflexivity.
      * unfold sbind, status, halt. simpl.
        rewrite ?app_nil_r, <- ?app_assoc. reflexivity.
    + unfold sbind, status, halt. simpl.
      rewrite ?app_nil_r, <- ?app_assoc. reflexivity.
Qed.

End Run.

(* ================================================================== *)
(** ** Properties of the completion gateway *)


(** C10: the guarded window expression of line 93 is the plain slice
    [chat_history[-10:]] for every list, and a history of exactly ten
    entries is taken whole. *)
Theorem guarded_window_is_plain_slice (H : list Message) :
  recent_history H = slice_from (-10) H
  /\ (length H = 10 -> recent_history H = H).
Proof.
  split.
  - rewrite recent_history_skipn.
    change (-10)%Z with (- Z.of_nat 10)%Z.
    symmetry. apply slice_from_neg. lia.
  - intros Hlen. unfold recent_history. rewrite Hlen. reflexivity.
Qed.

(** C6: with an empty history the request text is the new utterance
    itself, and that is what the gateway sends when the chat opens. *)
Theorem empty_history_prompt (U : pystr) :
  full_prompt U [] = U
  /\ forall m : GenerativeModel,
       sent_prompts (snd (get_gemini_response m U [])) =
       match start_chat m with Ok _ => [U] | Raise _ => [] end.
Proof.
  split; [reflexivity|].
  intros m. rewrite sent_prompts_gateway. reflexivity.
Qed.

(** C1, as the code has it: for a non-empty history the request text is
    the rendered context of the window, a blank line, and the new
    utterance under the prefix ["user: "]; this is the one text the
    gateway sends. *)
Theorem request_text_with_history (H : list Message) (U : pystr) :
  H <> [] ->
  full_prompt U H = spec_request_text (recent_history H) (lit "user: " ++ U)
  /\ forall m : GenerativeModel,
       sent_prompts (snd (get_gemini_response m U H)) =
       match start_chat m with
       | Ok _ => [spec_request_text (recent_history H) (lit "user: " ++ U)]
       | Raise _ => []
       end.
Proof.
  intros HH.
  assert (Hfull : full_prompt U H
                  = spec_request_text (recent_history H) (lit "user: " ++ U)).
  { unfold full_prompt, spec_request_text.
    pose proof (recent_history_nonempty HH) as Hne.
    rewrite context_truthy.
    destruct (recent_history H) as [|m l] eqn:Hrec; [congruence|].
    rewrite context_is_joined by discriminate.
    rewrite <- !app_assoc. reflexivity. }
  split; [exact Hfull|].
  intros m. rewrite sent_prompts_gateway, Hfull. reflexivity.
Qed.

Lemma request_text_with_history_witness :
  one_turn_history <> []
  /\ full_prompt (lit "x") one_turn_history
     = spec_request_text (recent_history one_turn_history) (lit "user: " ++ lit "x").
Proof.
  split; [discriminate|].
  apply (request_text_with_history (H := one_turn_history) (lit "x")).
  discriminate.
Defined.

(** C1 as worded fails: after the one-entry history [user: hi], the
    utterance [x] goes out as ["user: hi\n\nuser: x"], not as
    ["user: hi\n\nx"]. *)
Lemma request_text_counterexample :
  one_turn_history <> []
  /\ full_prompt (lit "x") one_turn_history
     = lit "user: hi" ++ nl ++ nl ++ lit "user: x"
  /\ spec_request_text one_turn_history (lit "x")
     = lit "user: hi" ++ nl ++ nl ++ lit "x"
  /\ full_prompt (lit "x") one_turn_history
     <> spec_request_text one_turn_history (lit "x")
  /\ sent_prompts (snd (get_gemini_response greeting_model (lit "x") one_turn_history))
     <> [spec_request_text one_turn_history (lit "x")].
Proof.
  repeat split; try reflexivity; try discriminate.
Qed.

Lemma guarded_window_is_plain_slice_witness :
  length (repeat (user_turn hello_inputs) 10) = 10
  /\ recent_history (repeat (user_turn hello_inputs) 10)
     = repeat (user_turn hello_inputs) 10.
Proof.
  split; [reflexivity|].
  apply (proj2 (guarded_window_is_plain_slice (repeat (user_turn hello_inputs) 10))).
  reflexivity.
Defined.

(* ================================================================== *)
(** ** Properties of a run *)

Section RunFacts.
Variable genai : pystr -> result GenerativeModel.

Lemma gateway_trace_calls (m : GenerativeModel) (prompt : pystr)
    (hist : list Message) :
  configured_keys (snd (get_gemini_response m prompt hist)) = []
  /\ shown Error (snd (get_gemini_response m prompt hist)) = [].
Proof.
  rewrite get_gemini_response_eq.
  destruct (start_chat m) as [chat|e]; [|split; reflexivity].
  cbv zeta.
  destruct (send_message chat (full_prompt prompt hist)) as [resp|e];
    [|split; reflexivity].
  destruct (text resp); split; reflexivity.
Qed.

Lemma sidebar_no_completion_call (inp : Inputs) (s : SessionState) :
  completion_calls (trace (sidebar_credentials genai inp s)) = [].
Proof.
  rewrite sidebar_credentials_eq.
  destruct (env_present (env_api_key inp)) as [k|].
  - destruct (model s); [reflexivity|]. destruct (genai k); reflexivity.
  - cbv zeta. destruct (truthy (api_key_input inp)); [|reflexivity].
    destruct (genai (api_key_input inp)); reflexivity.
Qed.

(** The chat part of a run that was asked to send a non-blank text. *)
Lemma main_send (inp : Inputs) (s : SessionState) (mdl : GenerativeModel) :
  ready genai inp s mdl ->
  clear_button inp = false ->
  send_button inp = true ->
  forallb is_space (user_input inp) = false ->
  outcome (main genai inp s) = inr Rerun
  /\ messages (state_after (main genai inp s))
     = messages s ++
       [user_turn inp;
        assistant_turn inp (gateway_reply mdl (user_input inp) (messages s))].
Proof.
  intros [Hkey Hmdl] Hclear Hsend Htext.
  pose proof (sidebar_credentials_messages genai inp s) as Hmsgs.
  rewrite main_eq. cbv zeta.
  set (s1 := state_after (sidebar_credentials genai inp s)) in *.
  rewrite Hclear, Hkey, Hmdl. cbn [negb].
  rewrite handle_send_eq.
  rewrite Hsend, strip_truthy, Htext. cbn [negb andb].
  unfold outcome, state_after. cbn [fst snd].
  split; [reflexivity|].
  unfold append_message, set_messages. cbn [messages].
  rewrite Hmsgs, <- app_assoc. reflexivity.
Qed.

(** No exception leaves [main]. *)
Lemma main_never_crashes (inp : Inputs) (s : SessionState) (e : pystr) :
  outcome (main genai inp s) <> inr (Uncaught e).
Proof.
  rewrite main_eq. cbv zeta.
  destruct (clear_button inp); [discriminate|].
  destruct (truthy (api_key _)); cbn [negb]; [|discriminate].
  destruct (model _) as [mdl|]; [|discriminate].
  rewrite handle_send_eq.
  destruct (send_button inp && truthy (strip (user_input inp))); discriminate.
Qed.

(** Nothing after the sidebar touches the handle or the credential. *)
Lemma main_keeps_configuration (inp : Inputs) (s : SessionState) :
  model (state_after (main genai inp s))
  = model (state_after (sidebar_credentials genai inp s))
  /\ api_key (state_after (main genai inp s))
     = api_key (state_after (sidebar_credentials genai inp s)).
Proof.
  rewrite main_eq. cbv zeta.
  destruct (clear_button inp); [split; reflexivity|].
  destruct (truthy (api_key _)); cbn [negb]; [|split; reflexivity].
  destruct (model (state_after (sidebar_credentials genai inp s)))
    as [mdl|] eqn:Hm; [|split; [exact Hm | reflexivity]].
  rewrite handle_send_eq.
  destruct (send_button inp && truthy (strip (user_input inp)));
    split; (exact Hm || (symmetry; exact Hm) || reflexivity).
Qed.

(** The trace of a run starts with the trace of the sidebar. *)
Lemma main_trace_prefix (inp : Inputs) (s : SessionState) :
  exists rest,
    trace (main genai inp s)
    = trace (sidebar_credentials genai inp s) ++ rest
    /\ configured_keys rest = [].
Proof.
  rewrite main_eq. cbv zeta.
  destruct (clear_button inp).
  { exists []. rewrite app_nil_r. split; reflexivity. }
  destruct (truthy (api_key _)); cbn [negb].
  2:{ eexists. unfold trace at 1. cbn [snd]. rewrite <- app_assoc.
      split; reflexivity. }
  destruct (model _) as [mdl|].
  2:{ eexists. unfold trace at 1. cbn [snd]. rewrite <- app_assoc.
      split; reflexivity. }
  rewrite handle_send_eq.
  destruct (send_button inp && truthy (strip (user_input inp))).
  - eexists. unfold trace at 1 3. cbn [snd]. rewrite <- app_assoc.
    split; [reflexivity|].
    cbn [app configured_keys flat_map].
    apply gateway_trace_calls.
  - eexists. unfold trace at 1 3. cbn [snd]. rewrite <- app_assoc.
    split; reflexivity.
Qed.

End RunFacts.

(* ================================================================== *)
(** ** Turns *)

(** C5: a run that sends a text with a non-space character, on a session
    that is configured, leaves a log two entries longer: the old log,
    then a user entry with that text, then an assistant entry with what
    the gateway returned (a completion or the error text). *)
Theorem turn_appends_user_then_assistant
    (genai : pystr -> result GenerativeModel) (inp : Inputs)
    (s : SessionState) (mdl : GenerativeModel) :
  ready genai inp s mdl ->
  clear_button inp = false ->
  send_button inp = true ->
  forallb is_space (user_input inp) = false ->
  let L := messages s in
  let L' := messages (state_after (main genai inp s)) in
  length L' = length L + 2
  /\ firstn (length L) L' = L
  /\ map role (skipn (length L) L') = [lit "user"; lit "assistant"]
  /\ map content (skipn (length L) L')
     = [user_input inp; gateway_reply mdl (user_input inp) L].
Proof.
  intros Hready Hclear Hsend Htext L L'.
  destruct (main_send Hready Hclear Hsend Htext) as [_ Hmsgs].
  subst L L'. rewrite Hmsgs.
  rewrite length_app, firstn_app, skipn_app.
  rewrite firstn_all, skipn_all, Nat.sub_diag.
  simpl. rewrite app_nil_r. auto.
Qed.

Lemma turn_appends_user_then_assistant_witness :
  length (messages (state_after (main accepting_genai hello_inputs configured_session)))
  = length (messages configured_session) + 2.
Proof.
  apply (@turn_appends_user_then_assistant accepting_genai hello_inputs
           configured_session greeting_model).
  - split; reflexivity.
  - reflexivity.
  - reflexivity.
  - reflexivity.
Defined.

(** C3: when the remote call raises with the error text [e], the
    gateway returns the text ["Error getting response: "] followed by
    [e], which is not empty; no call of the gateway raises; and the run
    that made the call ends normally with that text appended as the
    assistant entry. *)
Theorem completion_failure_becomes_reply :
  (forall (m : GenerativeModel) (prompt : pystr) (hist : list Message) (e : pystr),
      remote_call m (full_prompt prompt hist) = Raise e ->
      fst (get_gemini_response m prompt hist)
      = Ok (lit "Error getting response: " ++ e)
      /\ lit "Error getting response: " ++ e <> [])
  /\ (forall (m : GenerativeModel) (prompt : pystr) (hist : list Message),
         exists reply, fst (get_gemini_response m prompt hist) = Ok reply)
  /\ (forall (genai : pystr -> result GenerativeModel) (inp : Inputs)
             (s : SessionState) (mdl : GenerativeModel) (e : pystr),
         ready genai inp s mdl ->
         clear_button inp = false ->
         send_button inp = true ->
         forallb is_space (user_input inp) = false ->
         remote_call mdl (full_prompt (user_input inp) (messages s)) = Raise e ->
         outcome (main genai inp s) = inr Rerun
         /\ messages (state_after (main genai inp s))
            = messages s ++
              [ {| role := lit "user"; content := user_input inp;
                   timestamp := now_user inp |};
                {| role := lit "assistant";
                   content := lit "Error getting response: " ++ e;
                   timestamp := now_assistant inp |} ]).
Proof.
  split; [|split].
  - intros m prompt hist e Hraise.
    rewrite get_gemini_response_returns. unfold gateway_reply.
    rewrite Hraise. split; [reflexivity|]. discriminate.
  - intros m prompt hist. eexists. apply get_gemini_response_returns.
  - intros genai inp s mdl e Hready Hclear Hsend Htext Hraise.
    destruct (main_send Hready Hclear Hsend Htext) as [Hout Hmsgs].
    split; [exact Hout|].
    rewrite Hmsgs. unfold gateway_reply. rewrite Hraise. reflexivity.
Qed.

Lemma completion_failure_becomes_reply_witness :
  fst (get_gemini_response quota_model (lit "Hello") one_turn_history)
  = Ok (lit "Error getting response: quota exceeded")
  /\ messages (state_after (main flaky_genai hello_inputs initial_state))
     = [user_turn hello_inputs;
        assistant_turn hello_inputs (lit "Error getting response: quota exceeded")].
Proof.
  split.
  - apply (proj1 completion_failure_becomes_reply). reflexivity.
  - apply (proj2 (proj2 completion_failure_becomes_reply)
             flaky_genai hello_inputs initial_state quota_model).
    + split; reflexivity.
    + reflexivity.
    + reflexivity.
    + reflexivity.
    + reflexivity.
Defined.

(** C7: a run whose text field is empty or holds only spaces, the clear
    button not pressed, leaves the log as it was and makes no completion
    call, whether or not send was clicked. *)
Theorem blank_input_is_noop
    (genai : pystr -> result GenerativeModel) (inp : Inputs) (s : SessionState) :
  clear_button inp = false ->
  forallb is_space (user_input inp) = true ->
  messages (state_after (main genai inp s)) = messages s
  /\ length (messages (state_after (main genai inp s))) = length (messages s)
  /\ completion_calls (trace (main genai inp s)) = []
  /\ sent_prompts (trace (main genai inp s)) = [].
Proof.
  intros Hclear Hblank.
  pose proof (sidebar_credentials_messages genai inp s) as Hmsgs.
  pose proof (sidebar_no_completion_call genai inp s) as Hcalls.
  assert (Hsent : sent_prompts (trace (sidebar_credentials genai inp s)) = []).
  { rewrite sidebar_credentials_eq.
    destruct (env_present (env_api_key inp)) as [k|].
    - destruct (model s); [reflexivity|]. destruct (genai k); reflexivity.
    - cbv zeta. destruct (truthy (api_key_input inp)); [|reflexivity].
      destruct (genai (api_key_input inp)); reflexivity. }
  assert (Hmain :
    messages (state_after (main genai inp s)) = messages s
    /\ completion_calls (trace (main genai inp s)) = []
    /\ sent_prompts (trace (main genai inp s)) = []).
  { rewrite main_eq. cbv zeta. rewrite Hclear.
    set (s1 := state_after (sidebar_credentials genai inp s)) in *.
    set (tr1 := trace (sidebar_credentials genai inp s)) in *.
    destruct (truthy (api_key s1)); cbn [negb].
    - destruct (model s1) as [mdl|].
      + rewrite handle_send_eq, strip_truthy, Hblank.
        cbn [negb]. rewrite andb_false_r.
        unfold state_after, trace, completion_calls, sent_prompts.
        cbn [fst snd].
        rewrite !filter_app, !flat_map_app.
        fold (completion_calls tr1). fold (sent_prompts tr1).
        rewrite Hcalls, Hsent. auto.
      + unfold state_after, trace, completion_calls, sent_prompts.
        cbn [fst snd].
        rewrite !filter_app, !flat_map_app.
        fold (completion_calls tr1). fold (sent_prompts tr1).
        rewrite Hcalls, Hsent. auto.
    - unfold state_after, trace, completion_calls, sent_prompts.
      cbn [fst snd].
      rewrite !filter_app, !flat_map_app.
      fold (completion_calls tr1). fold (sent_prompts tr1).
      rewrite Hcalls, Hsent. auto. }
  destruct Hmain as (H1 & H2 & H3).
  repeat split; try assumption. rewrite H1. reflexivity.
Qed.

Lemma blank_input_is_noop_witness :
  messages (state_after (main accepting_genai blank_inputs configured_session))
  = messages configured_session.
Proof.
  apply (@blank_input_is_noop accepting_genai blank_inputs configured_session).
  - reflexivity.
  - reflexivity.
Defined.

(* ================================================================== *)
(** ** Credentials *)

Section Credentials.
Variable genai : pystr -> result GenerativeModel.

(** The credential part of the sidebar reads the environment and the
    credential field, nothing else. *)
Lemma sidebar_credentials_with_clear (inp : Inputs) (s : SessionState) :
  sidebar_credentials genai (with_clear inp) s = sidebar_credentials genai inp s.
Proof. reflexivity. Qed.

Lemma sidebar_credentials_env (inp : Inputs) (s : SessionState)
    (k other : pystr) :
  env_present (env_api_key inp) = Some k ->
  sidebar_credentials genai (with_api_key_input other inp) s
  = sidebar_credentials genai inp s.
Proof.
  intros Henv. unfold sidebar_credentials.
  cbn [env_api_key with_api_key_input]. rewrite Henv. reflexivity.
Qed.

Lemma sidebar_state_idempotent (inp : Inputs) (s : SessionState) :
  state_after (sidebar_credentials genai inp
                 (state_after (sidebar_credentials genai inp s)))
  = state_after (sidebar_credentials genai inp s).
Proof.
  rewrite (sidebar_credentials_eq genai inp s).
  destruct (env_present (env_api_key inp)) as [k|] eqn:Henv.
  - destruct (model s) as [m|] eqn:Hm.
    + rewrite sidebar_credentials_eq, Henv.
      unfold state_after. cbn [fst snd model set_api_key].
      rewrite Hm. reflexivity.
    + destruct (genai k) as [m|e] eqn:Hg;
        rewrite sidebar_credentials_eq, Henv;
        unfold state_after; cbn [fst snd model set_api_key set_model];
        rewrite ?Hg; reflexivity.
  - cbv zeta. destruct (truthy (api_key_input inp)) eqn:Hin.
    + destruct (genai (api_key_input inp)) as [m|e] eqn:Hg;
        rewrite sidebar_credentials_eq, Henv; cbv zeta;
        rewrite Hin, Hg; reflexivity.
    + rewrite sidebar_credentials_eq, Henv. cbv zeta. rewrite Hin.
      reflexivity.
Qed.

Lemma sidebar_state_clear (inp : Inputs) (s : SessionState) :
  state_after (sidebar_credentials genai inp (clear s))
  = clear (state_after (sidebar_credentials genai inp s)).
Proof.
  rewrite !sidebar_credentials_eq.
  destruct (env_present (env_api_key inp)) as [k|].
  - cbn [model clear set_messages].
    destruct (model s); [reflexivity|]. destruct (genai k); reflexivity.
  - cbv zeta. destruct (truthy (api_key_input inp)); [|reflexivity].
    destruct (genai (api_key_input inp)); reflexivity.
Qed.

Lemma main_clear_state (inp : Inputs) (s : SessionState) :
  state_after (main genai (with_clear inp) s)
  = clear (state_after (sidebar_credentials genai inp s)).
Proof. rewrite main_eq. reflexivity. Qed.

End Credentials.

(** C9: clearing gives the empty log whatever the state, and clearing
    twice is clearing once; the same holds for whole runs in which the
    clear button is pressed. *)
Theorem clear_empties_and_is_idempotent
    (genai : pystr -> result GenerativeModel) (inp : Inputs) (s : SessionState) :
  messages (clear s) = []
  /\ clear (clear s) = clear s
  /\ messages (state_after (main genai (with_clear inp) s)) = []
  /\ outcome (main genai (with_clear inp) s) = inr Rerun
  /\ state_after (main genai (with_clear inp)
                    (state_after (main genai (with_clear inp) s)))
     = state_after (main genai (with_clear inp) s).
Proof.
  split; [reflexivity|]. split; [reflexivity|].
  split; [rewrite main_clear_state; reflexivity|].
  split; [rewrite main_eq; reflexivity|].
  rewrite !main_clear_state.
  rewrite sidebar_state_clear, sidebar_state_idempotent. reflexivity.
Qed.

(** C8: with a non-empty [GEMINI_API_KEY] the run is the same whatever
    the credential field holds; the stored credential is the one of the
    environment, no other credential is tried, and a session without a
    handle gets the handle made from it. With neither credential, an
    unconfigured session stays unconfigured: the run stops at the
    warning, appends nothing and makes no completion call. *)
Theorem credential_precedence (genai : pystr -> result GenerativeModel) :
  (forall (inp : Inputs) (s : SessionState) (k other : pystr),
      env_api_key inp = Some k ->
      truthy k = true ->
      main genai (with_api_key_input other inp) s = main genai inp s
      /\ api_key (state_after (main genai inp s)) = k
      /\ Forall (eq k) (configured_keys (trace (main genai inp s)))
      /\ model (state_after (main genai inp s))
         = match model s with
           | Some m => Some m
           | None => handle_of (genai k)
           end)
  /\ (forall (inp : Inputs) (s : SessionState),
         env_present (env_api_key inp) = None ->
         truthy (api_key_input inp) = false ->
         api_key s = [] ->
         api_key (state_after (main genai inp s)) = []
         /\ model (state_after (main genai inp s)) = model s
         /\ configured_keys (trace (main genai inp s)) = []
         /\ completion_calls (trace (main genai inp s)) = []
         /\ messages (state_after (main genai inp s))
            = (if clear_button inp then [] else messages s)
         /\ outcome (main genai inp s)
            = inr (if clear_button inp then Rerun else Returned)).
Proof.
  split.
  - intros inp s k other Henv Hk.
    assert (Hpres : env_present (env_api_key inp) = Some k).
    { rewrite Henv. simpl. rewrite Hk. reflexivity. }
    split; [|split; [|split]].
    + rewrite !main_eq.
      rewrite (sidebar_credentials_env genai inp s other Hpres).
      reflexivity.
    + rewrite (proj2 (main_keeps_configuration genai inp s)).
      rewrite sidebar_credentials_eq, Hpres.
      destruct (model s); [reflexivity|]. destruct (genai k); reflexivity.
    + destruct (main_trace_prefix genai inp s) as (rest & Htr & Hrest).
      rewrite Htr. unfold configured_keys in *.
      rewrite flat_map_app, Hrest, app_nil_r.
      rewrite sidebar_credentials_eq, Hpres.
      destruct (model s); [constructor|].
      destruct (genai k); repeat constructor.
    + rewrite (proj1 (main_keeps_configuration genai inp s)).
      rewrite sidebar_credentials_eq, Hpres.
      destruct (model s) as [m|] eqn:Hm; [exact Hm|].
      destruct (genai k); reflexivity.
  - intros inp s Henv Hin Hkey.
    assert (Hside : sidebar_credentials genai inp s
                    = (inl tt, s, [EvStatus Info msg_env_missing])).
    { rewrite sidebar_credentials_eq, Henv. cbv zeta. rewrite Hin. reflexivity. }
    rewrite main_eq. cbv zeta. rewrite Hside.
    unfold state_after, trace, outcome. cbn [fst snd].
    destruct (clear_button inp).
    + cbn [fst snd]. repeat split; try reflexivity. exact Hkey.
    + rewrite Hkey. cbn [truthy negb fst snd].
      repeat split; try reflexivity. exact Hkey.
Qed.

Lemma credential_precedence_witness :
  (main accepting_genai (with_api_key_input (lit "another") env_inputs) initial_state
   = main accepting_genai env_inputs initial_state
   /\ api_key (state_after (main accepting_genai env_inputs initial_state))
      = lit "from-env")
  /\ messages (state_after (main accepting_genai no_key_inputs initial_state)) = [].
Proof.
  split.
  - destruct (proj1 (credential_precedence accepting_genai)
                env_inputs initial_state (lit "from-env") (lit "another")
                eq_refl eq_refl) as (Hsame & Hkey & _).
    split; [exact Hsame | exact Hkey].
  - destruct (proj2 (credential_precedence accepting_genai)
                no_key_inputs initial_state eq_refl eq_refl eq_refl)
      as (_ & _ & _ & _ & Hmsgs & _).
    exact Hmsgs.
Defined.

(** C2, as the code has it: when the configuration attempt of a run
    fails, [configure_gemini] returns [None] without raising, the run
    stores that [None] as the handle of the session, the error is shown,
    and no exception leaves the run. *)
Theorem failed_configure_stores_none
    (genai : pystr -> result GenerativeModel) (inp : Inputs)
    (s : SessionState) (k e : pystr) :
  In k (configured_keys (trace (main genai inp s))) ->
  genai k = Raise e ->
  fst (configure_gemini genai k) = Ok None
  /\ model (state_after (main genai inp s)) = None
  /\ In (lit "Error configuring Gemini API: " ++ e)
        (shown Error (trace (main genai inp s)))
  /\ (forall x, outcome (main genai inp s) <> inr (Uncaught x)).
Proof.
  intros Hin Hfail.
  split; [rewrite configure_gemini_eq, Hfail; reflexivity|].
  destruct (main_trace_prefix genai inp s) as (rest & Htr & Hrest).
  rewrite (proj1 (main_keeps_configuration genai inp s)).
  rewrite Htr in *. unfold configured_keys in Hin, Hrest.
  rewrite flat_map_app, Hrest, app_nil_r in Hin.
  unfold shown. rewrite flat_map_app.
  assert (Hside :
    model (state_after (sidebar_credentials genai inp s)) = None
    /\ In (msg_configure_error e)
          (shown Error (trace (sidebar_credentials genai inp s)))).
  { rewrite sidebar_credentials_eq in *.
    destruct (env_present (env_api_key inp)) as [k'|].
    - destruct (model s); [contradiction|].
      destruct (genai k') as [m|e'] eqn:Hg.
      + destruct Hin as [Hin|[]]. subst k'. congruence.
      + destruct Hin as [Hin|[]]. subst k'.
        assert (e' = e) by congruence. subst e'.
        split; [reflexivity|]. left. reflexivity.
    - cbv zeta in *.
      destruct (truthy (api_key_input inp)); [|contradiction].
      destruct (genai (api_key_input inp)) as [m|e'] eqn:Hg.
      + destruct Hin as [Hin|[]]. rewrite Hin in Hg. congruence.
      + destruct Hin as [Hin|[]]. rewrite Hin in Hg.
        assert (e' = e) by congruence. subst e'.
        split; [reflexivity|]. left. reflexivity. }
  destruct Hside as [Hnone Hshown].
  split; [exact Hnone|]. split.
  - apply in_or_app. left. exact Hshown.
  - intros x. apply main_never_crashes.
Qed.

Lemma failed_configure_stores_none_witness :
  model (state_after (main rejecting_genai bad_key_inputs configured_session)) = None.
Proof.
  apply (@failed_configure_stores_none rejecting_genai bad_key_inputs
           configured_session (lit "bad") (lit "bad key")).
  - left. reflexivity.
  - reflexivity.
Defined.

(** C2 as worded fails: a session that holds a working handle and then
    reads a credential the client rejects ends with no handle at all. *)
Lemma failed_configure_drops_handle :
  model configured_session = Some greeting_model
  /\ rejecting_genai (api_key_input bad_key_inputs) = Raise (lit "bad key")
  /\ configured_keys (trace (main rejecting_genai bad_key_inputs configured_session))
     = [lit "bad"]
  /\ model (state_after (main rejecting_genai bad_key_inputs configured_session))
     = None
  /\ model (state_after (main rejecting_genai bad_key_inputs configured_session))
     <> model configured_session.
Proof.
  repeat split; try reflexivity. discriminate.
Qed.

(* ================================================================== *)
(** ** Worked examples *)

(** [""] and ["   "] strip to the empty string; [" a b "] does not. *)
Example strip_examples :
  strip [] = [] /\ strip (lit "   ") = [] /\ strip (lit " a b ") = lit "a b".
Proof. repeat split. Qed.

(** Fifteen prior turns give a window of the last ten; three give three. *)
Example window_examples (a b : Message) :
  recent_history (repeat a 5 ++ repeat b 10) = repeat b 10
  /\ recent_history [a; b; a] = [a; b; a].
Proof. split; reflexivity. Qed.

(** Empty log, send ["Hello"], the client answers ["Hi there"], clear. *)
Example hello_scenario :
  let s1 := state_after (main accepting_genai hello_inputs initial_state) in
  map (fun m => (role m, content m)) (messages s1)
  = [(lit "user", lit "Hello"); (lit "assistant", lit "Hi there")]
  /\ messages (state_after (main accepting_genai (with_clear hello_inputs) s1)) = [].
Proof. split; reflexivity. Qed.


(* ================================================================== *)
(** ** The chat display *)

(** Replacing a single character is a character-by-character map. *)
Lemma replace_char (c : N) (new s : pystr) :
  replace [c] new s = flat_map (fun x => if (c =? x)%N then new else [x]) s.
Proof.
  unfold replace.
  induction s as [|x s IH]; [reflexivity|].
  cbn [replace_from starts_with flat_map length Nat.sub].
  rewrite andb_true_r.
  destruct (c =? x)%N; rewrite IH; reflexivity.
Qed.

Lemma clean_content_chars (s : pystr) :
  clean_content s = flat_map escape_char s.
Proof.
  unfold clean_content.
  change (lit ">") with [gt_char]. change (lit "<") with [lt_char].
  rewrite !replace_char.
  induction s as [|x s IH]; [reflexivity|].
  cbn [flat_map]. rewrite flat_map_app, IH. f_equal.
  unfold escape_char.
  destruct (x =? lt_char)%N eqn:Hlt.
  - apply N.eqb_eq in Hlt. subst x. reflexivity.
  - rewrite N.eqb_sym, Hlt. cbn [flat_map]. rewrite app_nil_r.
    rewrite (N.eqb_sym gt_char x).
    destruct (x =? gt_char)%N; reflexivity.
Qed.

Lemma clean_content_app (a b : pystr) :
  clean_content (a ++ b) = clean_content a ++ clean_content b.
Proof. rewrite !clean_content_chars. apply flat_map_app. Qed.

Lemma escape_char_no_brackets (x c : N) :
  In c (escape_char x) -> c <> lt_char /\ c <> gt_char.
Proof.
  unfold escape_char.
  destruct (x =? lt_char)%N eqn:Hlt.
  - intros Hin. vm_compute in Hin.
    repeat (destruct Hin as [Hin|Hin]; [subst c; split; discriminate|]).
    contradiction.
  - destruct (x =? gt_char)%N eqn:Hgt.
    + intros Hin. vm_compute in Hin.
      repeat (destruct Hin as [Hin|Hin]; [subst c; split; discriminate|]).
      contradiction.
    + intros [Hin|[]]. subst c.
      apply N.eqb_neq in Hlt, Hgt. auto.
Qed.

(** X1: whatever the content of a message, the text put into its bubble
    holds no ['<'] and no ['>']. *)
Theorem clean_content_has_no_brackets (content : pystr) :
  ~ In lt_char (clean_content content) /\ ~ In gt_char (clean_content content).
Proof.
  rewrite clean_content_chars.
  split; intros Hin; apply in_flat_map in Hin as (x & _ & Hx);
    apply escape_char_no_brackets in Hx; destruct Hx; congruence.
Qed.

(** X2: a content without ['<'] and ['>'] is shown as it is. *)
Theorem clean_content_keeps_plain_text (content : pystr) :
  ~ In lt_char content ->
  ~ In gt_char content ->
  clean_content content = content.
Proof.
  rewrite clean_content_chars.
  induction content as [|x s IH]; [reflexivity|].
  intros Hlt Hgt. cbn [flat_map].
  rewrite IH; [| intros Hin; apply Hlt; right; exact Hin
               | intros Hin; apply Hgt; right; exact Hin].
  unfold escape_char.
  destruct (x =? lt_char)%N eqn:Hx.
  { apply N.eqb_eq in Hx. exfalso. apply Hlt. left. auto. }
  destruct (x =? gt_char)%N eqn:Hy.
  { apply N.eqb_eq in Hy. exfalso. apply Hgt. left. auto. }
  reflexivity.
Qed.

Lemma clean_content_keeps_plain_text_witness :
  clean_content (lit "2 + 2 = 4 & so on") = lit "2 + 2 = 4 & so on".
Proof.
  apply clean_content_keeps_plain_text.
  - vm_compute. intuition discriminate.
  - vm_compute. intuition discriminate.
Defined.

(** X3: the ampersand is not escaped, so the display cannot tell a
    bracket from its entity: a content with ['<'] at some place and the
    content with ["&lt;"] at that place give the same text, and likewise
    for ['>'] and ["&gt;"]. *)
Theorem clean_content_confuses_entities (before after : pystr) :
  clean_content (before ++ [lt_char] ++ after)
  = clean_content (before ++ lit "&lt;" ++ after)
  /\ clean_content (before ++ [gt_char] ++ after)
     = clean_content (before ++ lit "&gt;" ++ after).
Proof.
  rewrite !clean_content_app. split; reflexivity.
Qed.

(** X4: the text handed to [st.markdown] for a message has seven ['<']
    and seven ['>'] characters, those of its template, whatever the role
    and the content of the message. *)
Theorem render_message_bracket_count (msg : Message) :
  count_occ N.eq_dec (render_message msg) lt_char = 7
  /\ count_occ N.eq_dec (render_message msg) gt_char = 7.
Proof.
  destruct (clean_content_has_no_brackets (content msg)) as [Hlt Hgt].
  apply (count_occ_not_In N.eq_dec) in Hlt, Hgt.
  unfold render_message. cbv zeta.
  destruct (str_eqb (role msg) (lit "user"));
    unfold user_bubble, assistant_bubble;
    rewrite !count_occ_app, Hlt, Hgt; split; reflexivity.
Qed.

(* ================================================================== *)
(** ** What the request text depends on *)

Lemma build_context_reads (l1 l2 : list Message) :
  map role_and_content l1 = map role_and_content l2 ->
  build_context l1 = build_context l2.
Proof.
  rewrite !build_context_concat.
  revert l2. induction l1 as [|m1 l1 IH]; intros [|m2 l2] Heq;
    try discriminate; [reflexivity|].
  cbn [map concat] in *. unfold role_and_content at 1 3 in Heq.
  injection Heq as Hr Hc Hl.
  unfold context_line. rewrite Hr, Hc. f_equal. apply IH. exact Hl.
Qed.

(** X5: the request text reads the role and the content of the entries
    and nothing else: two histories that differ in timestamps only give
    the same request. *)
Theorem full_prompt_ignores_timestamps (U : pystr) (H1 H2 : list Message) :
  map role_and_content H1 = map role_and_content H2 ->
  full_prompt U H1 = full_prompt U H2.
Proof.
  intros Heq. unfold full_prompt. cbv zeta.
  assert (Hctx : build_context (recent_history H1)
                 = build_context (recent_history H2)).
  { apply build_context_reads.
    rewrite !recent_history_skipn, <- !skipn_map.
    assert (Hlen : length H1 = length H2).
    { rewrite <- (length_map role_and_content H1), Heq. apply length_map. }
    rewrite Hlen, Heq. reflexivity. }
  rewrite Hctx. reflexivity.
Qed.

Lemma full_prompt_ignores_timestamps_witness :
  full_prompt (lit "x") one_turn_history
  = full_prompt (lit "x")
      [ {| role := lit "user"; content := lit "hi"; timestamp := lit "later" |} ].
Proof.
  apply full_prompt_ignores_timestamps. reflexivity.
Defined.

(** X6: once the history holds ten entries, older ones have no part in
    the request: putting any entries in front changes nothing. *)
Theorem full_prompt_ignores_older_history (U : pystr) (older H : list Message) :
  10 <= length H ->
  full_prompt U (older ++ H) = full_prompt U H.
Proof.
  intros Hlen. unfold full_prompt. cbv zeta.
  assert (Hwin : recent_history (older ++ H) = recent_history H).
  { rewrite !recent_history_skipn, skipn_app, length_app.
    replace (length older + length H - 10 - length older)
      with (length H - 10) by lia.
    rewrite skipn_all2 by lia. reflexivity. }
  rewrite Hwin. reflexivity.
Qed.

Lemma full_prompt_ignores_older_history_witness :
  full_prompt (lit "x") (one_turn_history ++ long_history)
  = full_prompt (lit "x") long_history.
Proof.
  apply full_prompt_ignores_older_history. vm_compute. lia.
Defined.

(* ================================================================== *)
(** ** What a run does to the log *)

Section LogFacts.
Variable genai : pystr -> result GenerativeModel.

Lemma sidebar_sends_nothing (inp : Inputs) (s : SessionState) :
  sent_prompts (trace (sidebar_credentials genai inp s)) = [].
Proof.
  rewrite sidebar_credentials_eq.
  destruct (env_present (env_api_key inp)) as [k|].
  - destruct (model s); [reflexivity|]. destruct (genai k); reflexivity.
  - cbv zeta. destruct (truthy (api_key_input inp)); [|reflexivity].
    destruct (genai (api_key_input inp)); reflexivity.
Qed.

(** A run in which the send branch is not taken. *)
Lemma main_without_send (inp : Inputs) (s : SessionState) :
  clear_button inp = false ->
  send_button inp && truthy (strip (user_input inp)) = false ->
  messages (state_after (main genai inp s)) = messages s
  /\ completion_calls (trace (main genai inp s)) = []
  /\ sent_prompts (trace (main genai inp s)) = [].
Proof.
  intros Hclear Hsend.
  pose proof (sidebar_credentials_messages genai inp s) as Hmsgs.
  pose proof (sidebar_no_completion_call genai inp s) as Hcalls.
  pose proof (sidebar_sends_nothing inp s) as Hsent.
  rewrite main_eq. cbv zeta. rewrite Hclear.
  set (s1 := state_after (sidebar_credentials genai inp s)) in *.
  set (tr1 := trace (sidebar_credentials genai inp s)) in *.
  assert (Hdone : forall ev : list Event,
             completion_calls ev = [] -> sent_prompts ev = [] ->
             completion_calls (tr1 ++ ev) = []
             /\ sent_prompts (tr1 ++ ev) = []).
  { intros ev Hc Hs.
    unfold completion_calls, sent_prompts in *.
    rewrite filter_app, flat_map_app, Hcalls, Hsent, Hc, Hs. auto. }
  destruct (truthy (api_key s1)); cbn [negb].
  - destruct (model s1) as [mdl|].
    + rewrite handle_send_eq, Hsend.
      unfold outcome, state_after, trace. cbn [fst snd].
      rewrite app_nil_r. split; [exact Hmsgs|]. apply Hdone; reflexivity.
    + unfold state_after, trace. cbn [fst snd].
      rewrite <- app_assoc. split; [exact Hmsgs|]. apply Hdone; reflexivity.
  - unfold state_after, trace. cbn [fst snd].
    rewrite <- app_assoc. split; [exact Hmsgs|]. apply Hdone; reflexivity.
Qed.

End LogFacts.

(** X7: a run in which neither button is clicked leaves the log as it
    was and calls the remote model not at all, whatever is typed in the
    text field. *)
Theorem no_click_no_change
    (genai : pystr -> result GenerativeModel) (inp : Inputs) (s : SessionState) :
  clear_button inp = false ->
  send_button inp = false ->
  messages (state_after (main genai inp s)) = messages s
  /\ completion_calls (trace (main genai inp s)) = []
  /\ sent_prompts (trace (main genai inp s)) = [].
Proof.
  intros Hclear Hsend. apply main_without_send; [exact Hclear|].
  rewrite Hsend. reflexivity.
Qed.

Lemma no_click_no_change_witness :
  messages (state_after (main accepting_genai idle_inputs configured_session))
  = messages configured_session.
Proof.
  apply (@no_click_no_change accepting_genai idle_inputs configured_session);
    reflexivity.
Defined.

Lemma log_changes_only_by_turn_or_clear_cases
    (genai : pystr -> result GenerativeModel) (inp : Inputs) (s : SessionState) :
  messages (state_after (main genai inp s)) = messages s
  \/ messages (state_after (main genai inp s)) = []
  \/ exists reply,
       messages (state_after (main genai inp s))
       = messages s ++ [user_turn inp; assistant_turn inp reply].
Proof.
  destruct (clear_button inp) eqn:Hclear.
  { right; left. rewrite main_eq. cbv zeta. rewrite Hclear. reflexivity. }
  destruct (send_button inp && truthy (strip (user_input inp))) eqn:Hsend.
  2:{ left. apply (main_without_send genai inp s Hclear Hsend). }
  pose proof (sidebar_credentials_messages genai inp s) as Hmsgs.
  rewrite main_eq. cbv zeta. rewrite Hclear.
  set (s1 := state_after (sidebar_credentials genai inp s)) in *.
  destruct (truthy (api_key s1)); cbn [negb]; [|left; exact Hmsgs].
  destruct (model s1) as [mdl|]; [|left; exact Hmsgs].
  right; right. rewrite handle_send_eq, Hsend.
  exists (gateway_reply mdl (user_input inp) (messages s1)).
  unfold state_after at 1 2. cbn [fst snd].
  unfold append_message, set_messages. cbn [messages].
  rewrite Hmsgs, <- app_assoc. reflexivity.
Qed.


(** X8: a run changes the log in one of three ways: not at all, to the
    empty log, or by a user entry and an assistant entry at its end. No
    run removes, rewrites or reorders single entries. *)
Theorem log_changes_only_by_turn_or_clear
    (genai : pystr -> result GenerativeModel) (inp : Inputs) (s : SessionState) :
  let L' := messages (state_after (main genai inp s)) in
  L' = messages s
  \/ L' = []
  \/ exists reply, L' = messages s ++ [user_turn inp; assistant_turn inp reply].
Proof. apply log_changes_only_by_turn_or_clear_cases. Qed.

(* ================================================================== *)
(** ** Invariants of a session *)

Lemma alternating_app_bounded (n : nat) :
  forall a b : list Message,
    length a <= n ->
    alternating a = true ->
    alternating (a ++ b) = alternating b.
Proof.
  induction n as [|n IH]; intros a b Hlen Halt.
  - destruct a; [reflexivity | simpl in Hlen; lia].
  - destruct a as [|u [|x rest]]; [reflexivity | discriminate |].
    cbn [alternating app] in *.
    apply andb_prop in Halt as [Hroles Hrest].
    rewrite Hroles. cbn [andb].
    apply IH; [simpl in Hlen; lia | exact Hrest].
Qed.

Lemma alternating_app (a b : list Message) :
  alternating a = true -> alternating (a ++ b) = alternating b.
Proof. apply (alternating_app_bounded (n := length a)). lia. Qed.

Lemma alternating_even_bounded (n : nat) :
  forall a : list Message,
    length a <= n -> alternating a = true -> Nat.even (length a) = true.
Proof.
  induction n as [|n IH]; intros a Hlen Halt.
  - destruct a; [reflexivity | simpl in Hlen; lia].
  - destruct a as [|u [|x rest]]; [reflexivity | discriminate |].
    cbn [alternating] in Halt.
    apply andb_prop in Halt as [_ Hrest].
    cbn [length Nat.even].
    apply IH; [simpl in Hlen; lia | exact Hrest].
Qed.

Lemma main_keeps_alternating
    (genai : pystr -> result GenerativeModel) (inp : Inputs) (s : SessionState) :
  alternating (messages s) = true ->
  alternating (messages (state_after (main genai inp s))) = true.
Proof.
  intros Halt.
  destruct (log_changes_only_by_turn_or_clear_cases genai inp s)
    as [Heq|[Heq|[reply Heq]]]; rewrite Heq.
  - exact Halt.
  - reflexivity.
  - rewrite alternating_app by exact Halt. reflexivity.
Qed.

(** X9: in a session, the log is always made of pairs, a user entry
    followed by an assistant entry: if it is so before a sequence of
    runs, it is so after it, and its length is even. *)
Theorem session_log_alternates
    (genai : pystr -> result GenerativeModel) (inps : list Inputs)
    (s : SessionState) :
  alternating (messages s) = true ->
  alternating (messages (runs genai inps s)) = true
  /\ Nat.even (length (messages (runs genai inps s))) = true.
Proof.
  intros Halt.
  assert (Hruns : alternating (messages (runs genai inps s)) = true).
  { unfold runs. revert s Halt.
    induction inps as [|inp inps IH]; intros s Halt; [exact Halt|].
    cbn [fold_left]. apply IH. apply main_keeps_alternating. exact Halt. }
  split; [exact Hruns|].
  apply (alternating_even_bounded (n := length (messages (runs genai inps s))));
    [lia | exact Hruns].
Qed.

Lemma session_log_alternates_witness :
  alternating
    (messages (runs flaky_genai [hello_inputs; blank_inputs; hello_inputs]
                 initial_state)) = true.
Proof.
  apply (@session_log_alternates flaky_genai
           [hello_inputs; blank_inputs; hello_inputs] initial_state).
  reflexivity.
Defined.

(* ================================================================== *)
(** ** Configuration over a session *)

Section ConfigurationFacts.
Variable genai : pystr -> result GenerativeModel.

Lemma main_configured_keys (inp : Inputs) (s : SessionState) :
  configured_keys (trace (main genai inp s))
  = configured_keys (trace (sidebar_credentials genai inp s)).
Proof.
  destruct (main_trace_prefix genai inp s) as (rest & Htr & Hrest).
  rewrite Htr. unfold configured_keys in *.
  rewrite flat_map_app, Hrest. apply app_nil_r.
Qed.

(** A handle is stored only together with a credential. *)
Lemma main_keeps_handle_with_credential (inp : Inputs) (s : SessionState) :
  model s = None \/ truthy (api_key s) = true ->
  model (state_after (main genai inp s)) = None
  \/ truthy (api_key (state_after (main genai inp s))) = true.
Proof.
  intros Hinv.
  destruct (main_keeps_configuration genai inp s) as [Hm Hk].
  rewrite Hm, Hk, sidebar_credentials_eq.
  destruct (env_present (env_api_key inp)) as [k|] eqn:Henv.
  - assert (Hk' : truthy k = true).
    { unfold env_present in Henv.
      destruct (env_api_key inp) as [k0|]; [|discriminate].
      destruct (truthy k0) eqn:Hk0; [|discriminate].
      injection Henv as <-. exact Hk0. }
    destruct (model s); [right; exact Hk'|].
    destruct (genai k); right; exact Hk'.
  - cbv zeta. destruct (truthy (api_key_input inp)) eqn:Hin; [|exact Hinv].
    destruct (genai (api_key_input inp)); right; exact Hin.
Qed.

Lemma main_keeps_credential (inp : Inputs) (s : SessionState) :
  truthy (api_key s) = true ->
  truthy (api_key (state_after (main genai inp s))) = true.
Proof.
  intros Hkey.
  rewrite (proj2 (main_keeps_configuration genai inp s)), sidebar_credentials_eq.
  destruct (env_present (env_api_key inp)) as [k|] eqn:Henv.
  - assert (Hk' : truthy k = true).
    { unfold env_present in Henv.
      destruct (env_api_key inp) as [k0|]; [|discriminate].
      destruct (truthy k0) eqn:Hk0; [|discriminate].
      injection Henv as <-. exact Hk0. }
    destruct (model s); [exact Hk'|]. destruct (genai k); exact Hk'.
  - cbv zeta. destruct (truthy (api_key_input inp)) eqn:Hin; [|exact Hkey].
    destruct (genai (api_key_input inp)); exact Hin.
Qed.

End ConfigurationFacts.

(** X10: from the state of a new session, whatever runs follow, a handle
    is never stored without a credential: the page never reaches the
    chat part with a handle and an empty credential. *)
Theorem handle_implies_credential
    (genai : pystr -> result GenerativeModel) (inps : list Inputs) :
  model (runs genai inps initial_state) = None
  \/ truthy (api_key (runs genai inps initial_state)) = true.
Proof.
  unfold runs.
  assert (Hgen : forall s,
             model s = None \/ truthy (api_key s) = true ->
             model (fold_left (fun st inp => state_after (main genai inp st)) inps s)
             = None
             \/ truthy (api_key (fold_left
                          (fun st inp => state_after (main genai inp st)) inps s))
                = true).
  { induction inps as [|inp inps IH]; intros s Hinv; [exact Hinv|].
    cbn [fold_left]. apply IH. apply main_keeps_handle_with_credential.
    exact Hinv. }
  apply Hgen. left. reflexivity.
Qed.

(** X11: a stored credential is never taken away: once the session has
    one, it has one after every later run, also when the environment
    variable is gone and the credential field is emptied. *)
Theorem credential_never_removed
    (genai : pystr -> result GenerativeModel) (inps : list Inputs)
    (s : SessionState) :
  truthy (api_key s) = true ->
  truthy (api_key (runs genai inps s)) = true.
Proof.
  unfold runs. revert s.
  induction inps as [|inp inps IH]; intros s Hkey; [exact Hkey|].
  cbn [fold_left]. apply IH. apply main_keeps_credential. exact Hkey.
Qed.

Lemma credential_never_removed_witness :
  truthy (api_key (runs rejecting_genai [no_key_inputs; idle_inputs]
                     configured_session)) = true.
Proof.
  apply credential_never_removed. reflexivity.
Defined.

(** X12: a run that finds no credential, neither in the environment nor
    in the credential field, leaves the stored credential and the stored
    handle as they were and tries no configuration; a configured session
    stays configured. *)
Theorem no_source_keeps_configuration
    (genai : pystr -> result GenerativeModel) (inp : Inputs) (s : SessionState) :
  env_present (env_api_key inp) = None ->
  truthy (api_key_input inp) = false ->
  api_key (state_after (main genai inp s)) = api_key s
  /\ model (state_after (main genai inp s)) = model s
  /\ configured_keys (trace (main genai inp s)) = [].
Proof.
  intros Henv Hin.
  destruct (main_keeps_configuration genai inp s) as [Hm Hk].
  rewrite Hm, Hk, main_configured_keys.
  rewrite sidebar_credentials_eq, Henv. cbv zeta. rewrite Hin.
  repeat split.
Qed.

Lemma no_source_keeps_configuration_witness :
  model (state_after (main rejecting_genai idle_inputs configured_session))
  = model configured_session.
Proof.
  apply (@no_source_keeps_configuration rejecting_genai idle_inputs
           configured_session); reflexivity.
Defined.

(** X13: with a credential in the environment the handle is made once:
    a run tries the configuration exactly when the session has no handle,
    and a stored handle is kept as it is. *)
Theorem env_path_configures_lazily
    (genai : pystr -> result GenerativeModel) (inp : Inputs)
    (s : SessionState) (k : pystr) :
  env_api_key inp = Some k ->
  truthy k = true ->
  configured_keys (trace (main genai inp s))
  = match model s with Some _ => [] | None => [k] end
  /\ (forall m, model s = Some m ->
                model (state_after (main genai inp s)) = Some m).
Proof.
  intros Henv Hk.
  assert (Hpres : env_present (env_api_key inp) = Some k).
  { rewrite Henv. simpl. rewrite Hk. reflexivity. }
  rewrite main_configured_keys.
  rewrite (proj1 (main_keeps_configuration genai inp s)).
  rewrite sidebar_credentials_eq, Hpres.
  destruct (model s) as [m0|] eqn:Hm.
  - split; [reflexivity|]. intros m Heq. rewrite <- Heq. exact Hm.
  - split; [|discriminate]. destruct (genai k); reflexivity.
Qed.

Lemma env_path_configures_lazily_witness :
  configured_keys (trace (main rejecting_genai env_inputs configured_session)) = [].
Proof.
  apply (@env_path_configures_lazily rejecting_genai env_inputs
           configured_session (lit "from-env")); reflexivity.
Defined.

(** X14: with no credential in the environment and a text in the
    credential field, every run configures again with that text, also
    when the session already has a handle, and stores what the attempt
    gave. *)
Theorem interactive_path_reconfigures
    (genai : pystr -> result GenerativeModel) (inp : Inputs) (s : SessionState) :
  env_present (env_api_key inp) = None ->
  truthy (api_key_input inp) = true ->
  configured_keys (trace (main genai inp s)) = [api_key_input inp]
  /\ api_key (state_after (main genai inp s)) = api_key_input inp
  /\ model (state_after (main genai inp s)) = handle_of (genai (api_key_input inp)).
Proof.
  intros Henv Hin.
  destruct (main_keeps_configuration genai inp s) as [Hm Hk].
  rewrite Hm, Hk, main_configured_keys.
  rewrite sidebar_credentials_eq, Henv. cbv zeta. rewrite Hin.
  destruct (genai (api_key_input inp)); repeat split.
Qed.

Lemma interactive_path_reconfigures_witness :
  configured_keys (trace (main accepting_genai hello_inputs configured_session))
  = [lit "good"].
Proof.
  apply (@interactive_path_reconfigures accepting_genai hello_inputs
           configured_session); reflexivity.
Defined.

(* ================================================================== *)
(** ** Remote calls of a run *)

Section RemoteFacts.
Variable genai : pystr -> result GenerativeModel.

Lemma gateway_trace_eq (m : GenerativeModel) (prompt : pystr)
    (hist : list Message) :
  snd (get_gemini_response m prompt hist)
  = EvStartChat ::
    match start_chat m with
    | Ok _ => [EvSend (full_prompt prompt hist)]
    | Raise _ => []
    end.
Proof.
  rewrite get_gemini_response_eq.
  destruct (start_chat m) as [chat|e]; [|reflexivity].
  cbv zeta.
  destruct (send_message chat (full_prompt prompt hist)) as [resp|e]; [|reflexivity].
  destruct (text resp); reflexivity.
Qed.

(** The trace of a run that takes the send branch. *)
Lemma main_send_trace (inp : Inputs) (s : SessionState) (mdl : GenerativeModel) :
  ready genai inp s mdl ->
  clear_button inp = false ->
  send_button inp = true ->
  forallb is_space (user_input inp) = false ->
  trace (main genai inp s)
  = trace (sidebar_credentials genai inp s)
    ++ [EvStatus Info (msg_count (length (messages s)))]
    ++ snd (get_gemini_response mdl (user_input inp) (messages s)).
Proof.
  intros [Hkey Hmdl] Hclear Hsend Htext.
  pose proof (sidebar_credentials_messages genai inp s) as Hmsgs.
  rewrite main_eq. cbv zeta.
  set (s1 := state_after (sidebar_credentials genai inp s)) in *.
  rewrite Hclear, Hkey, Hmdl. cbn [negb].
  rewrite handle_send_eq.
  rewrite Hsend, strip_truthy, Htext. cbn [negb andb].
  unfold trace at 1 3. cbn [snd].
  rewrite Hmsgs, <- app_assoc. reflexivity.
Qed.

Lemma sidebar_configures_at_most_once (inp : Inputs) (s : SessionState) :
  length (configured_keys (trace (sidebar_credentials genai inp s))) <= 1.
Proof.
  rewrite sidebar_credentials_eq.
  destruct (env_present (env_api_key inp)) as [k|].
  - destruct (model s); [simpl; lia|]. destruct (genai k); simpl; lia.
  - cbv zeta. destruct (truthy (api_key_input inp)); [|simpl; lia].
    destruct (genai (api_key_input inp)); simpl; lia.
Qed.

End RemoteFacts.

(** X15: a run makes at most one configuration attempt, and sends at
    most one request to the remote model. *)
Theorem at_most_one_remote_call
    (genai : pystr -> result GenerativeModel) (inp : Inputs) (s : SessionState) :
  length (configured_keys (trace (main genai inp s))) <= 1
  /\ length (sent_prompts (trace (main genai inp s))) <= 1.
Proof.
  split.
  - rewrite main_configured_keys. apply sidebar_configures_at_most_once.
  - destruct (clear_button inp) eqn:Hclear.
    { rewrite main_eq. cbv zeta. rewrite Hclear.
      unfold trace at 1. cbn [snd].
      rewrite sidebar_sends_nothing. simpl. lia. }
    destruct (send_button inp && truthy (strip (user_input inp))) eqn:Hsend.
    2:{ destruct (main_without_send genai inp s Hclear Hsend) as (_ & _ & Hs).
        rewrite Hs. simpl. lia. }
    pose proof (sidebar_sends_nothing genai inp s) as Hside.
    rewrite main_eq. cbv zeta. rewrite Hclear.
    set (s1 := state_after (sidebar_credentials genai inp s)) in *.
    set (tr1 := trace (sidebar_credentials genai inp s)) in *.
    destruct (truthy (api_key s1)); cbn [negb].
    + destruct (model s1) as [mdl|].
      * rewrite handle_send_eq, Hsend.
        unfold trace. cbn [snd].
        unfold sent_prompts in *. rewrite !flat_map_app, Hside.
        cbn [flat_map app].
        fold (sent_prompts (snd (get_gemini_response mdl (user_input inp) (messages s1)))).
        rewrite sent_prompts_gateway.
        destruct (start_chat mdl); simpl; lia.
      * unfold trace. cbn [snd].
        unfold sent_prompts in *. rewrite !flat_map_app, Hside. simpl. lia.
    + unfold trace. cbn [snd].
      unfold sent_prompts in *. rewrite !flat_map_app, Hside. simpl. lia.
Qed.

(** X16: the request of a turn is built from the log as it was before
    the turn: the user entry just appended is not part of the context,
    it goes out once, as the new utterance. *)
Theorem sent_prompt_is_built_from_old_log
    (genai : pystr -> result GenerativeModel) (inp : Inputs)
    (s : SessionState) (mdl : GenerativeModel) (chat : ChatSession) :
  ready genai inp s mdl ->
  clear_button inp = false ->
  send_button inp = true ->
  forallb is_space (user_input inp) = false ->
  start_chat mdl = Ok chat ->
  sent_prompts (trace (main genai inp s))
  = [full_prompt (user_input inp) (messages s)].
Proof.
  intros Hready Hclear Hsend Htext Hchat.
  rewrite (main_send_trace Hready Hclear Hsend Htext).
  unfold sent_prompts. rewrite !flat_map_app.
  fold (sent_prompts (trace (sidebar_credentials genai inp s))).
  rewrite sidebar_sends_nothing.
  rewrite gateway_trace_eq, Hchat. reflexivity.
Qed.

Lemma sent_prompt_is_built_from_old_log_witness :
  sent_prompts (trace (main accepting_genai hello_inputs configured_session))
  = [full_prompt (lit "Hello") one_turn_history].
Proof.
  apply (@sent_prompt_is_built_from_old_log accepting_genai hello_inputs
           configured_session greeting_model
           (mkChat (fun _ => Ok (mkResponse (Ok (lit "Hi there"))))));
    try reflexivity.
  split; reflexivity.
Defined.

(** X17: when the remote call returns a text, the gateway returns that
    text unchanged, and the run stores it unchanged as the content of the
    assistant entry. *)
Theorem completion_success_is_verbatim :
  (forall (m : GenerativeModel) (prompt : pystr) (hist : list Message) (t : pystr),
      remote_call m (full_prompt prompt hist) = Ok t ->
      fst (get_gemini_response m prompt hist) = Ok t)
  /\ (forall (genai : pystr -> result GenerativeModel) (inp : Inputs)
             (s : SessionState) (mdl : GenerativeModel) (t : pystr),
         ready genai inp s mdl ->
         clear_button inp = false ->
         send_button inp = true ->
         forallb is_space (user_input inp) = false ->
         remote_call mdl (full_prompt (user_input inp) (messages s)) = Ok t ->
         messages (state_after (main genai inp s))
         = messages s ++ [user_turn inp; assistant_turn inp t]).
Proof.
  split.
  - intros m prompt hist t Hok.
    rewrite get_gemini_response_returns. unfold gateway_reply.
    rewrite Hok. reflexivity.
  - intros genai inp s mdl t Hready Hclear Hsend Htext Hok.
    destruct (main_send Hready Hclear Hsend Htext) as [_ Hmsgs].
    rewrite Hmsgs. unfold gateway_reply. rewrite Hok. reflexivity.
Qed.

Lemma completion_success_is_verbatim_witness :
  fst (get_gemini_response greeting_model (lit "Hello") one_turn_history)
  = Ok (lit "Hi there")
  /\ messages (state_after (main accepting_genai hello_inputs initial_state))
     = [user_turn hello_inputs; assistant_turn hello_inputs (lit "Hi there")].
Proof.
  split.
  - apply (proj1 completion_success_is_verbatim). reflexivity.
  - apply (proj2 completion_success_is_verbatim
             accepting_genai hello_inputs initial_state greeting_model);
      try reflexivity.
    split; reflexivity.
Defined.

(** X18: after a run that clears the log, the next turn goes out without
    any context: the request is the new utterance itself. *)
Theorem first_request_after_clear_has_no_context
    (genai : pystr -> result GenerativeModel) (before inp : Inputs)
    (s : SessionState) (mdl : GenerativeModel) (chat : ChatSession) :
  let cleared := state_after (main genai (with_clear before) s) in
  ready genai inp cleared mdl ->
  clear_button inp = false ->
  send_button inp = true ->
  forallb is_space (user_input inp) = false ->
  start_chat mdl = Ok chat ->
  sent_prompts (trace (main genai inp cleared)) = [user_input inp].
Proof.
  intros cleared Hready Hclear Hsend Htext Hchat.
  assert (Hempty : messages cleared = []).
  { unfold cleared. rewrite main_clear_state. reflexivity. }
  rewrite (main_send_trace Hready Hclear Hsend Htext).
  unfold sent_prompts. rewrite !flat_map_app.
  fold (sent_prompts (trace (sidebar_credentials genai inp cleared))).
  rewrite sidebar_sends_nothing.
  rewrite gateway_trace_eq, Hchat, Hempty. reflexivity.
Qed.

Lemma first_request_after_clear_has_no_context_witness :
  sent_prompts
    (trace (main accepting_genai hello_inputs
              (state_after (main accepting_genai (with_clear idle_inputs)
                              configured_session))))
  = [lit "Hello"].
Proof.
  apply (@first_request_after_clear_has_no_context accepting_genai idle_inputs
           hello_inputs configured_session greeting_model
           (mkChat (fun _ => Ok (mkResponse (Ok (lit "Hi there"))))));
    try reflexivity.
  split; reflexivity.
Defined.

(** X19: a run that does not clear shows an info box with the text
    ["Messages in chat: "] followed by the decimal number of entries the
    log had when the run began, also when the run goes on to append a
    turn. *)
Theorem message_count_shown
    (genai : pystr -> result GenerativeModel) (inp : Inputs) (s : SessionState) :
  clear_button inp = false ->
  In (lit "Messages in chat: " ++ str_of_nat (length (messages s)))
     (shown Info (trace (main genai inp s))).
Proof.
  intros Hclear.
  pose proof (sidebar_credentials_messages genai inp s) as Hmsgs.
  rewrite main_eq. cbv zeta. rewrite Hclear.
  set (s1 := state_after (sidebar_credentials genai inp s)) in *.
  set (tr1 := trace (sidebar_credentials genai inp s)) in *.
  assert (Hin : forall (o : unit + stop) (st : SessionState) (ev : list Event),
             In (lit "Messages in chat: " ++ str_of_nat (length (messages s)))
                (shown Info
                   (trace (o, st,
                           (tr1 ++ [EvStatus Info (msg_count (length (messages s1)))])
                           ++ ev)))).
  { intros o st ev. unfold trace. cbn [snd]. unfold shown.
    rewrite !flat_map_app. apply in_or_app. left. apply in_or_app. right.
    rewrite Hmsgs. left. reflexivity. }
  destruct (truthy (api_key s1)); cbn [negb]; [|apply Hin].
  destruct (model s1); apply Hin.
Qed.

Lemma message_count_shown_witness :
  In (lit "Messages in chat: 1")
     (shown Info (trace (main accepting_genai hello_inputs configured_session))).
Proof.
  apply (@message_count_shown accepting_genai hello_inputs configured_session).
  reflexivity.
Defined.

Lemma alternating_skipn_pairs (k : nat) :
  forall l : list Message,
    alternating l = true -> alternating (skipn (2 * k) l) = true.
Proof.
  induction k as [|k IH]; intros l Halt; [exact Halt|].
  replace (2 * S k) with (S (S (2 * k))) by lia.
  destruct l as [|u [|a rest]]; [reflexivity | discriminate |].
  cbn [skipn]. apply IH.
  cbn [alternating] in Halt. apply andb_prop in Halt as [_ Hrest]. exact Hrest.
Qed.

(** X20: the window never splits a turn: when the log is made of user
    and assistant pairs, so is the context window, which therefore opens
    with a user entry. *)
Theorem window_keeps_pairs (H : list Message) :
  alternating H = true -> alternating (recent_history H) = true.
Proof.
  intros Halt.
  pose proof (@alternating_even_bounded (length H) H (Nat.le_refl _) Halt) as Heven.
  apply Nat.even_spec in Heven as [h Hh].
  rewrite recent_history_skipn, Hh.
  replace (2 * h - 10) with (2 * (h - 5)) by lia.
  apply alternating_skipn_pairs. exact Halt.
Qed.

Lemma window_keeps_pairs_witness :
  alternating
    (recent_history
       (messages (runs accepting_genai (repeat hello_inputs 7) initial_state)))
  = true.
Proof.
  apply window_keeps_pairs. vm_compute. reflexivity.
Defined.
